(** * Atlas Scientific command protocol and pH measurement cycle (Mycodo)

    A shallow embedding of
      - [mycodo/utils/calibration.py]  (class [AtlasScientificCommand]),
      - [mycodo/inputs/atlas_ph.py]    ([InputModule.get_measurement]),
    followed by the properties of the natural-language specification that
    concern them.

    Python methods become computations in a small monad that threads the
    chronological trace of observable effects (transport queries, sleeps,
    log records) and either returns a value or raises an exception.  The
    trace survives a raised exception, exactly as effects performed inside a
    [try] block survive the jump to its [except] clause. *)

From Stdlib Require Import String Ascii List ZArith Bool Lia.
From Stdlib Require Import DecimalString.
Import ListNotations.
Open Scope Z_scope.
Open Scope string_scope.

Set Implicit Arguments.

(* ================================================================== *)
(** * Python values that cross the interfaces *)

(** Operands and command literals.  A float is carried by its [repr]
    (the shortest rendering that round-trips), which is also what
    [str.format] prints for it. *)
Inductive pyval :=
| PyNone
| PyStr (s : string)
| PyInt (z : Z)
| PyFloat (repr : string).

(** [x is None] *)
Definition is_none (v : pyval) : bool :=
  match v with PyNone => true | _ => false end.

(** Truth value of [v] in a condition ([if v:]). *)
Definition truthy (v : pyval) : bool :=
  match v with
  | PyNone => false
  | PyStr s => negb (s =? EmptyString)
  | PyInt z => negb (z =? 0)%Z
  | PyFloat r => negb ((r =? "0.0") || (r =? "-0.0"))
  end.

(** What ['{}'.format(v)] renders. *)
Definition py_format (v : pyval) : string :=
  match v with
  | PyNone => "None"
  | PyStr s => s
  | PyInt z => NilZero.string_of_int (Z.to_int z)
  | PyFloat r => r
  end.

(** An exception object: its class and its message.  Every exception of
    the model derives from [Exception], so [except Exception] catches it. *)
Inductive exn := Exn (cls : string) (msg : string).

Definition AttributeError := Exn "AttributeError".
Definition IndexError := Exn "IndexError".
Definition ValueError := Exn "ValueError".

(** What a transport's [query] returns (spec section 6): the serial
    variants (FTDI, UART) a status and the lines read, the I2C variant a
    status token and a payload string. *)
Inductive response :=
| RLines (status : string) (lines : list string)
| RPair (status : string) (payload : string).

(** The second component of a command result: a plain string, whatever the
    transport returned, or the exception object caught while sending. *)
Inductive message :=
| MStr (s : string)
| MResp (r : response)
| MExc (e : exn).

(** The float built by [float(text)], kept symbolically by the text it
    was parsed from. *)
Inductive pyfloat := FloatOf (text : string).

(* ================================================================== *)
(** * Effects *)

(** The attribute of the command object through which a transport is
    reached. *)
Inductive slot := atlas_device_slot | ph_sensor_ftdi_slot | ph_sensor_uart_slot | ph_sensor_i2c_slot.

Inductive level := Debug | Error.

(** Log records, one constructor per logging call of the two modules. *)
Inductive log_record :=
(* calibration.py *)
| LInitFailed (error_msg : string)                      (* l.52 *)
| LInitSuccess (meas : pyval) (brd : Z) (fw : pyval)    (* l.55 *)
| LSendException (err : exn)                            (* l.155 *)
(* atlas_ph.py *)
| LSensorNotSetUp                                       (* l.153 *)
| LCalibrateTemperature                                 (* l.158 *)
| LLatestTemperature (temp : pyval)                     (* l.166 *)
| LCalibrationReturned (val : pyval) (msg : message)    (* l.174 *)
| LCompensationNotFound (max_age : Z)                   (* l.178 *)
| LReturnedList (lines : list string)                   (* l.186 *)
| LCheckProbe                                           (* l.197 *)
| LFoundFloat (val : pyfloat)                           (* l.200 *)
| LValueNotFound (lines : list string)                  (* l.203 *)
| LReadUnsuccessful (err : string)                      (* l.211 *)
| LCouldNotDetermine (ph_str : string).                 (* l.220 *)

Inductive event :=
| EQuery (via : slot) (cmd : pyval)   (* a transport's [query(cmd)] was called *)
| ESleep (ms : Z)                     (* [time.sleep], in milliseconds *)
| ELog (lvl : level) (rec : log_record).

Definition trace := list event.

Inductive outcome (A : Type) :=
| Return (a : A)
| Raise (e : exn).
Arguments Raise {A} e.

Definition M (A : Type) : Type := trace -> outcome A * trace.

Definition ret {A} (a : A) : M A := fun t => (Return a, t).

Definition raise {A} (e : exn) : M A := fun t => (Raise e, t).

Definition bind {A B} (m : M A) (k : A -> M B) : M B :=
  fun t => match m t with
           | (Return a, t') => k a t'
           | (Raise e, t') => (Raise e, t')
           end.

(** [try: body  except Exception as err: handler err] *)
Definition try_except {A} (body : M A) (handler : exn -> M A) : M A :=
  fun t => match body t with
           | (Return a, t') => (Return a, t')
           | (Raise e, t') => handler e t'
           end.

Definition emit (e : event) : M unit := fun t => (Return tt, (t ++ [e])%list).

Definition sleep (ms : Z) : M unit := emit (ESleep ms).

Definition log (lvl : level) (r : log_record) : M unit := emit (ELog lvl r).

Declare Scope py_scope.
Delimit Scope py_scope with py.
Notation "x <- m ;; k" := (bind m (fun x => k))
  (at level 61, m at next level, right associativity) : py_scope.
Notation "' pat <- m ;; k" := (bind m (fun x => match x with pat => k end))
  (at level 61, pat pattern, m at next level, right associativity) : py_scope.
Notation "m ;; k" := (bind m (fun _ => k))
  (at level 61, right associativity) : py_scope.
Open Scope py_scope.

(* ================================================================== *)
(** * The transport *)

(** A driver object ([AtlasScientificFTDI], [AtlasScientificUART],
    [AtlasScientificI2C]; none of them is part of the two modules).  Its
    answer to a query may depend on everything that happened before, so
    the oracle receives the trace so far. *)
Record device := {
  setup : bool;
  get_board_version : pyval * Z * pyval;
  query : trace -> pyval -> outcome response
}.

(** [dev.query(cmd)], reached through attribute [via]. *)
Definition call_query (via : slot) (dev : device) (cmd : pyval) : M response :=
  fun t => (query dev t cmd, (t ++ [EQuery via cmd])%list).

(** The value a computation returned, if it returned. *)
Definition fst_of {A} (r : outcome A * trace) : option A :=
  match fst r with Return a => Some a | Raise _ => None end.

(** The commands queried so far, oldest first. *)
Fixpoint queries (t : trace) : list pyval :=
  match t with
  | [] => []
  | EQuery _ c :: t' => c :: queries t'
  | _ :: t' => queries t'
  end.

(** The state of an instance attribute that is meant to hold an object. *)
Inductive attr (A : Type) :=
| Unset               (* never assigned: reading it raises AttributeError *)
| IsNone              (* assigned [None] *)
| Bound (a : A).
Arguments Unset {A}.
Arguments IsNone {A}.

(* ================================================================== *)
(** * calibration.py *)

Module Calibration.

(** The fields of [input_dev] read by the constructor. *)
Record input_dev := {
  dev_interface : string;
  ftdi_location : string;
  uart_location : string;
  baud_rate : Z;
  i2c_location : string;
  i2c_bus : Z
}.

(** Instance state of [AtlasScientificCommand].  The attribute [cmd_send]
    is set to [None] by the constructor and never read; it is left out.
    [ph_sensor_ftdi] is never assigned by the class, [ph_sensor_uart] and
    [ph_sensor_i2c] are assigned [None] (l.18-19) and nothing else. *)
Record AtlasScientificCommand := {
  ph_sensor_ftdi : attr device;
  ph_sensor_uart : attr device;
  ph_sensor_i2c : attr device;
  interface : string;
  init_error : option string;
  atlas_device : device;
  measurement : pyval;
  board_version : Z;
  firmware_version : pyval
}.

(** The diagnostic built at l.45-51. *)
Definition init_error_msg (meas : pyval) (brd : Z) (fw : pyval) : string :=
  "Atlas Scientific board initialization unsuccessful. " ++
  "Unable to retrieve device info (this indicates the " ++
  "device was not properly initialized or connected). " ++
  "Returned: " ++ py_format meas ++ ", " ++ py_format (PyInt brd) ++ ", " ++ py_format fw.

Section Init.

(** The drivers' constructors (l.26-38), which live outside the module:
    opening the device described by [input_dev] either fails or yields the
    driver object. *)
Variable connect : input_dev -> outcome device.

(** [AtlasScientificCommand.__init__] (l.16-60). *)
Definition __init__ (dev : input_dev) (sensor : option device) : M AtlasScientificCommand :=
  let iface := dev_interface dev in
  d <- match sensor with
       | Some s => ret s
       | None =>
           if (iface =? "FTDI") || (iface =? "UART") || (iface =? "I2C")
           then (fun t => (connect dev, t))
           else raise (AttributeError
                  "'AtlasScientificCommand' object has no attribute 'atlas_device'")
       end ;;
  let '(meas, brd, fw) := get_board_version d in
  let self ie :=
    {| ph_sensor_ftdi := Unset;
       ph_sensor_uart := IsNone;
       ph_sensor_i2c := IsNone;
       interface := iface;
       init_error := ie;
       atlas_device := d;
       measurement := meas;
       board_version := brd;
       firmware_version := fw |} in
  if (brd =? 0)%Z then
    let error_msg := init_error_msg meas brd fw in
    log Error (LInitFailed error_msg) ;;
    ret (self (Some error_msg))
  else
    log Debug (LInitSuccess meas brd fw) ;;
    ret (self None).

End Init.

(** [self.<attribute>.query(cmd)] for one of the [ph_sensor_*] attributes. *)
Definition query_attr (via : slot) (name : string) (a : attr device) (cmd : pyval)
  : M response :=
  match a with
  | Unset => raise (AttributeError
      ("'AtlasScientificCommand' object has no attribute '" ++ name ++ "'"))
  | IsNone => raise (AttributeError "'NoneType' object has no attribute 'query'")
  | Bound d => call_query via d cmd
  end.

(** [send_command] (l.139-158). *)
Definition send_command (self : AtlasScientificCommand) (cmd_send : pyval)
  : M (pyval * message) :=
  try_except
    (if negb (is_none cmd_send) then
       return_value <-
         (if interface self =? "FTDI" then
            r <- query_attr ph_sensor_ftdi_slot "ph_sensor_ftdi" (ph_sensor_ftdi self) cmd_send ;;
            ret (MResp r)
          else if interface self =? "UART" then
            r <- query_attr ph_sensor_uart_slot "ph_sensor_uart" (ph_sensor_uart self) cmd_send ;;
            ret (MResp r)
          else if interface self =? "I2C" then
            r <- query_attr ph_sensor_i2c_slot "ph_sensor_i2c" (ph_sensor_i2c self) cmd_send ;;
            ret (MResp r)
          else ret (MStr "No message")) ;;
       sleep 100 ;;
       ret (PyInt 0, return_value)
     else
       ret (PyInt 1, MStr "No command given"))
    (fun err =>
       log Error (LSendException err) ;;
       ret (PyInt 1, MExc err)).

Definition calibrated_legacy_msg : string :=
  "Calibrated query not implemented on board version 1 (assume it was successfully calibrated)".

(** [calibrate] (l.65-137).  [keep] is the pair [(err, msg)] as it stands
    when a branch assigns nothing. *)
Definition calibrate (self : AtlasScientificCommand)
    (command : string) (set_amount : pyval) (custom_cmd : pyval)
  : M (pyval * message) :=
  let err := PyInt 1 in
  let msg := match init_error self with
             | Some e => if e =? EmptyString then MStr "Default message" else MStr e
             | None => MStr "Default message"
             end in
  let keep := ret (err, msg) in
  let v := board_version self in
  (* Atlas EC *)
  if command =? "ec_dry" then
    if (v =? 2)%Z then send_command self (PyStr "cal,dry") else keep
  else if command =? "ec_low" then
    if (v =? 2)%Z then send_command self (PyStr ("cal,low," ++ py_format set_amount)) else keep
  else if command =? "ec_high" then
    if (v =? 2)%Z then send_command self (PyStr ("cal,high," ++ py_format set_amount)) else keep
  (* Atlas pH *)
  else if (command =? "temperature") && negb (is_none set_amount) then
    if (v =? 1)%Z then send_command self set_amount
    else if (v =? 2)%Z then send_command self (PyStr ("T," ++ py_format set_amount))
    else keep
  else if command =? "clear_calibration" then
    if (v =? 1)%Z then
      r <- send_command self (PyStr "X") ;;
      send_command self (PyStr "L0") ;;
      ret r
    else if (v =? 2)%Z then send_command self (PyStr "Cal,clear")
    else keep
  else if command =? "continuous" then
    if (v =? 1)%Z then send_command self (PyStr "C")
    else if (v =? 2)%Z then send_command self (PyStr "C,1")
    else keep
  else if command =? "low" then
    if (v =? 1)%Z then send_command self (PyStr "F")
    else if (v =? 2)%Z then send_command self (PyStr "Cal,low,4.00")
    else keep
  else if command =? "mid" then
    if (v =? 1)%Z then send_command self (PyStr "S")
    else if (v =? 2)%Z then send_command self (PyStr "Cal,mid,7.00")
    else keep
  else if command =? "high" then
    if (v =? 1)%Z then send_command self (PyStr "T")
    else if (v =? 2)%Z then send_command self (PyStr "Cal,high,10.00")
    else keep
  else if command =? "calibrated" then
    if (v =? 1)%Z then ret (PyStr "success", MStr calibrated_legacy_msg)
    else if (v =? 2)%Z then send_command self (PyStr "Cal,?")
    else keep
  else if command =? "end" then
    if (v =? 1)%Z then send_command self (PyStr "E")
    else if (v =? 2)%Z then send_command self (PyStr "C,0")
    else keep
  else if truthy custom_cmd then send_command self custom_cmd
  else keep.

(** [get_sensor_measurement] (l.62-63). *)
Definition get_sensor_measurement (self : AtlasScientificCommand) : pyval :=
  measurement self.

End Calibration.

(* ================================================================== *)
(** * String and list primitives of Python used by atlas_ph.py *)

(** [c in s] for a one-character string [c]. *)
Fixpoint contains_char (c : ascii) (s : string) : bool :=
  match s with
  | EmptyString => false
  | String a rest => Ascii.eqb a c || contains_char c rest
  end.

(** [s.split(c)] for a one-character separator: never empty, one more
    field than there are separators. *)
Fixpoint split_on (c : ascii) (s : string) : list string :=
  match s with
  | EmptyString => [EmptyString]
  | String a rest =>
      if Ascii.eqb a c then EmptyString :: split_on c rest
      else match split_on c rest with
           | field :: fields => String a field :: fields
           | [] => [String a EmptyString]
           end
  end.

(** [s.count(c)] for a one-character string [c]. *)
Fixpoint count_char (c : ascii) (s : string) : nat :=
  match s with
  | EmptyString => O
  | String a rest => if Ascii.eqb a c then S (count_char c rest) else count_char c rest
  end.

(** [l[i]] for [i >= 0]. *)
Definition index {A} (l : list A) (i : nat) : M A :=
  match nth_error l i with
  | Some x => ret x
  | None => raise (IndexError "list index out of range")
  end.

(** [x in l] on a list of strings. *)
Definition str_in (x : string) (l : list string) : bool :=
  existsb (String.eqb x) l.

(** The loop of l.190-194: the first element accepted by [p], if any. *)
Fixpoint first_accepted (p : option string -> bool) (l : list string) : option string :=
  match l with
  | [] => None
  | each_split :: rest =>
      if p (Some each_split) then Some each_split else first_accepted p rest
  end.

Definition comma : ascii := ","%char.

(* ================================================================== *)
(** * atlas_ph.py *)

Module AtlasPh.

(** One entry of a measurements dictionary; [ch_value = None] is an absent
    (or [None]) value. *)
Record channel := {
  ch_measurement : string;
  ch_unit : string;
  ch_value : option pyfloat
}.

(** A dictionary from channel index to entry, in insertion order. *)
Definition return_dict := list (Z * channel).

(** [measurements_dict] (l.28-33). *)
Definition measurements_dict : return_dict :=
  [ (0, {| ch_measurement := "ion_concentration"; ch_unit := "pH"; ch_value := None |}) ].

(** Modelled from the spec: [value_set] is a method of [AbstractInput]
    (mycodo/inputs/base_input.py), which is not among the sources.  Spec
    4.4, step 5: the parsed value, or nothing on a faulted cycle, is
    stored into the cycle's output slot at the given index. *)
Definition value_set (chan : Z) (v : option pyfloat) (d : return_dict) : return_dict :=
  map (fun '(i, c) =>
         if (i =? chan)%Z
         then (i, {| ch_measurement := ch_measurement c; ch_unit := ch_unit c; ch_value := v |})
         else (i, c)) d.

(** The value stored at index [chan], if the index exists. *)
Fixpoint value_at (chan : Z) (d : return_dict) : option (option pyfloat) :=
  match d with
  | [] => None
  | (i, c) :: rest => if (i =? chan)%Z then Some (ch_value c) else value_at chan rest
  end.

(** Instance state of [InputModule] read by [get_measurement]. *)
Record InputModule := {
  interface : string;
  atlas_device : option device;     (* [None] until [initialize_sensor] binds it *)
  atlas_command : option Calibration.AtlasScientificCommand;
  temperature_comp_meas_device_id : pyval;
  temperature_comp_meas_measurement_id : pyval;
  max_age : Z
}.

Section Cycle.

(** Which texts Python's [float] accepts. *)
Variable float_parses : string -> bool.

(** The measurement store behind [AbstractInput.get_last_measurement]
    (not among the sources; spec section 6): the latest (time, value) of
    the given source that is no older than [max_age] seconds, if any. *)
Variable get_last_measurement : pyval -> pyval -> Z -> option (pyval * pyval).

(** [float(text)] *)
Definition py_float (text : string) : M pyfloat :=
  if float_parses text then ret (FloatOf text)
  else raise (ValueError ("could not convert string to float: '" ++ text ++ "'")).

(** Modelled from the spec: [str_is_float] is imported from
    mycodo/utils/system_pi.py, which is not among the sources.  Spec 4.4:
    a text (a line, the payload, a field) "parseable as a float"; the
    absent text [None] is not. *)
Definition str_is_float (text : option string) : bool :=
  match text with
  | Some s => float_parses s
  | None => false
  end.

(** l.156-180: temperature compensation. *)
Definition compensate (self : InputModule) : M unit :=
  (* [self.temperature_comp_meas_measurement_id and self.atlas_command] *)
  match (if truthy (temperature_comp_meas_measurement_id self)
         then atlas_command self else None) with
  | Some cmd =>
      log Debug LCalibrateTemperature ;;
      match get_last_measurement (temperature_comp_meas_device_id self)
              (temperature_comp_meas_measurement_id self) (max_age self) with
      | Some (_, temp) =>
          log Debug (LLatestTemperature temp) ;;
          ' (ret_value, ret_msg) <- Calibration.calibrate cmd "temperature" temp PyNone ;;
          sleep 500 ;;
          log Debug (LCalibrationReturned ret_value ret_msg)
      | None =>
          log Error (LCompensationNotFound (max_age self))
      end
  | None => ret tt
  end.

(** A response of the other transport's shape is outside the drivers'
    contract (spec section 6); the model stops there. *)
Definition shape_violation {A} : M A :=
  raise (Exn "TypeError" "response shape does not match the interface").

(** l.182-205: read and parse on FTDI or UART. *)
Definition read_serial (dev : device) : M (option pyfloat) :=
  r <- call_query atlas_device_slot dev (PyStr "R") ;;
  match r with
  | RLines ph_status ph_list =>
      (match ph_list with
       | [] => ret tt
       | _ => log Debug (LReturnedList ph_list)
       end) ;;
      (* Find float value in list *)
      let float_value := first_accepted str_is_float ph_list in
      if str_in "check probe" ph_list then
        log Error LCheckProbe ;;
        ret None
      else if str_is_float float_value then
        match float_value with
        | Some text =>
            ph <- py_float text ;;
            log Debug (LFoundFloat ph) ;;
            ret (Some ph)
        | None => raise (Exn "TypeError" "float() argument must be a string or a number")
        end
      else
        log Error (LValueNotFound ph_list) ;;
        ret None
  | RPair _ _ => shape_violation
  end.

(** l.207-220: read and parse on I2C. *)
Definition read_i2c (dev : device) : M (option pyfloat) :=
  r <- call_query atlas_device_slot dev (PyStr "R") ;;
  match r with
  | RPair ph_status ph_str =>
      if ph_status =? "error" then
        log Error (LReadUnsuccessful ph_str) ;;
        ret None
      else if ph_status =? "success" then
        third_is_float <-
          (if contains_char comma ph_str then
             field <- index (split_on comma ph_str) 2 ;;
             ret (str_is_float (Some field))
           else ret false) ;;
        if third_is_float then
          field <- index (split_on comma ph_str) 2 ;;
          ph <- py_float field ;;
          ret (Some ph)
        else if str_is_float (Some ph_str) then
          ph <- py_float ph_str ;;
          ret (Some ph)
        else
          log Error (LCouldNotDetermine ph_str) ;;
          ret None
      else ret None
  | RLines _ _ => shape_violation
  end.

(** [InputModule.get_measurement] (l.147-224).  The method returns [None]
    after "Sensor not set up" and the dictionary otherwise. *)
Definition get_measurement (self : InputModule) : M (option return_dict) :=
  (* [measurements_dict.copy()] is shallow: the entry of index 0 is shared
     with the module's dictionary, and its only key that changes is the
     one [value_set] overwrites before the dictionary is returned. *)
  let return_dict := measurements_dict in
  dev <- match atlas_device self with
         | Some d => ret d
         | None => raise (AttributeError "'NoneType' object has no attribute 'setup'")
         end ;;
  if negb (setup dev) then
    log Error LSensorNotSetUp ;;
    ret None
  else
    (* Compensate measurement based on a temperature measurement *)
    compensate self ;;
    ph <- (if (interface self =? "FTDI") || (interface self =? "UART") then read_serial dev
           else if interface self =? "I2C" then read_i2c dev
           else ret None) ;;
    ret (Some (value_set 0 ph return_dict)).

End Cycle.

End AtlasPh.

(* ================================================================== *)
(** * The translation table of the specification (section 4.2) *)

(** What the table prescribes for one (command, generation) pair. *)
Inductive table_entry :=
| Unsupported
| Literal (s : pyval)
| TwoSends (first second : string)
| FixedSuccess (msg : string).

(** The table, row by row, as the specification words it.  The text of
    the legacy [calibrated] row is left open here. *)
Definition translation_table (legacy_calibrated : string)
    (command : string) (generation : Z) (x : pyval) : table_entry :=
  let row (legacy current : table_entry) :=
    if (generation =? 1)%Z then legacy
    else if (generation =? 2)%Z then current
    else Unsupported in
  if command =? "ec_dry" then row Unsupported (Literal (PyStr "cal,dry"))
  else if command =? "ec_low" then row Unsupported (Literal (PyStr ("cal,low," ++ py_format x)))
  else if command =? "ec_high" then row Unsupported (Literal (PyStr ("cal,high," ++ py_format x)))
  else if command =? "temperature" then row (Literal x) (Literal (PyStr ("T," ++ py_format x)))
  else if command =? "clear_calibration" then row (TwoSends "X" "L0") (Literal (PyStr "Cal,clear"))
  else if command =? "continuous" then row (Literal (PyStr "C")) (Literal (PyStr "C,1"))
  else if command =? "low" then row (Literal (PyStr "F")) (Literal (PyStr "Cal,low,4.00"))
  else if command =? "mid" then row (Literal (PyStr "S")) (Literal (PyStr "Cal,mid,7.00"))
  else if command =? "high" then row (Literal (PyStr "T")) (Literal (PyStr "Cal,high,10.00"))
  else if command =? "calibrated" then row (FixedSuccess legacy_calibrated) (Literal (PyStr "Cal,?"))
  else if command =? "end" then row (Literal (PyStr "E")) (Literal (PyStr "C,0"))
  else Unsupported.

(** The table with the legacy [calibrated] message the specification quotes. *)
Definition spec_table : string -> Z -> pyval -> table_entry :=
  translation_table "not implemented on legacy board, assume calibrated".

(** What the controller does with an entry (spec 4.2 and 4.3). *)
Definition run_entry (self : Calibration.AtlasScientificCommand) (e : table_entry)
  : M (pyval * message) :=
  match e with
  | Unsupported => ret (PyInt 1, MStr "Default message")
  | Literal s => Calibration.send_command self s
  | TwoSends a b =>
      r <- Calibration.send_command self (PyStr a) ;;
      Calibration.send_command self (PyStr b) ;;
      ret r
  | FixedSuccess m => ret (PyStr "success", MStr m)
  end.

(** The fixed enumerated set of symbolic commands. *)
Definition named_commands : list string :=
  ["ec_dry"; "ec_low"; "ec_high"; "temperature"; "clear_calibration";
   "continuous"; "low"; "mid"; "high"; "calibrated"; "end"].

(** A call resolves to its named command when the name is one of the set
    and, for [temperature], an operand comes with it. *)
Definition resolves_named (command : string) (set_amount : pyval) : bool :=
  str_in command named_commands
  && negb ((command =? "temperature") && is_none set_amount).

(** The transport a command object would reach for its interface, when the
    attribute read by [send_command] holds one. *)
Definition bound_transport (self : Calibration.AtlasScientificCommand) : option device :=
  let pick (a : attr device) := match a with Bound d => Some d | _ => None end in
  if Calibration.interface self =? "FTDI" then pick (Calibration.ph_sensor_ftdi self)
  else if Calibration.interface self =? "UART" then pick (Calibration.ph_sensor_uart self)
  else if Calibration.interface self =? "I2C" then pick (Calibration.ph_sensor_i2c self)
  else None.

(** The attribute [send_command] reads for the interface of [self]. *)
Definition interface_slot (self : Calibration.AtlasScientificCommand) : slot :=
  if Calibration.interface self =? "FTDI" then ph_sensor_ftdi_slot
  else if Calibration.interface self =? "UART" then ph_sensor_uart_slot
  else ph_sensor_i2c_slot.

(** The pair [calibrate] starts from. *)
Definition default_result (self : Calibration.AtlasScientificCommand) : pyval * message :=
  (PyInt 1,
   match Calibration.init_error self with
   | Some e => if e =? EmptyString then MStr "Default message" else MStr e
   | None => MStr "Default message"
   end).

(** The end of a cycle (l.222-224): the reading, or its absence, is stored
    at index 0 of the returned dictionary; an exception passes through. *)
Definition finish (r : outcome (option pyfloat) * trace)
  : outcome (option AtlasPh.return_dict) * trace :=
  match r with
  | (Return ph, t) => (Return (Some (AtlasPh.value_set 0 ph AtlasPh.measurements_dict)), t)
  | (Raise e, t) => (Raise e, t)
  end.

(** The debug record of l.185-187. *)
Definition returned_list_log (lines : list string) : trace :=
  match lines with
  | [] => []
  | _ => [ELog Debug (LReturnedList lines)]
  end.

(* ================================================================== *)
(** * Sample objects *)

Module Samples.

(** A driver stub: set up, reporting board generation [brd], answering
    every query with [reply]. *)
Definition stub (brd : Z) (reply : outcome response) : device :=
  {| setup := true;
     get_board_version := (PyStr "pH", brd, PyStr "1.0");
     query := fun _ _ => reply |}.

(** A driver stub of generation [brd] that fails on the literal [bad] and
    answers every other query with [ok_reply]. *)
Definition failing_on (brd : Z) (bad : string) : device :=
  {| setup := true;
     get_board_version := (PyStr "pH", brd, PyStr "1.0");
     query := fun _ cmd =>
       match cmd with
       | PyStr s => if s =? bad then Raise (Exn "IOError" "write failed")
                    else Return (RPair "success" "OK")
       | _ => Return (RPair "success" "OK")
       end |}.

Definition input_on (iface : string) : Calibration.input_dev :=
  {| Calibration.dev_interface := iface;
     Calibration.ftdi_location := "/dev/ttyUSB0";
     Calibration.uart_location := "/dev/ttyAMA0";
     Calibration.baud_rate := 9600;
     Calibration.i2c_location := "0x63";
     Calibration.i2c_bus := 1 |}.

(** No driver can be opened: the samples always pass their own [sensor]. *)
Definition no_driver (d : Calibration.input_dev) : outcome device :=
  Raise (Exn "ImportError" "driver not available").

Definition ok_reply : outcome response := Return (RPair "success" "OK").

(** The object [AtlasScientificCommand(input_dev, sensor=stub)] leaves
    behind, for interface [iface] and probed generation [brd]. *)
Definition constructed (iface : string) (brd : Z) : Calibration.AtlasScientificCommand :=
  {| Calibration.ph_sensor_ftdi := Unset;
     Calibration.ph_sensor_uart := IsNone;
     Calibration.ph_sensor_i2c := IsNone;
     Calibration.interface := iface;
     Calibration.init_error :=
       if (brd =? 0)%Z
       then Some (Calibration.init_error_msg (PyStr "pH") brd (PyStr "1.0"))
       else None;
     Calibration.atlas_device := stub brd ok_reply;
     Calibration.measurement := PyStr "pH";
     Calibration.board_version := brd;
     Calibration.firmware_version := PyStr "1.0" |}.

(** The same object after a caller bound the I2C transport attribute that
    [send_command] reads. *)
Definition with_i2c_transport (brd : Z) (reply : outcome response)
  : Calibration.AtlasScientificCommand :=
  {| Calibration.ph_sensor_ftdi := Unset;
     Calibration.ph_sensor_uart := IsNone;
     Calibration.ph_sensor_i2c := Bound (stub brd reply);
     Calibration.interface := "I2C";
     Calibration.init_error :=
       if (brd =? 0)%Z
       then Some (Calibration.init_error_msg (PyStr "pH") brd (PyStr "1.0"))
       else None;
     Calibration.atlas_device := stub brd reply;
     Calibration.measurement := PyStr "pH";
     Calibration.board_version := brd;
     Calibration.firmware_version := PyStr "1.0" |}.

(** A legacy object on I2C whose bound transport fails on [L0]. *)
Definition legacy_failing_l0 : Calibration.AtlasScientificCommand :=
  {| Calibration.ph_sensor_ftdi := Unset;
     Calibration.ph_sensor_uart := IsNone;
     Calibration.ph_sensor_i2c := Bound (failing_on 1 "L0");
     Calibration.interface := "I2C";
     Calibration.init_error := None;
     Calibration.atlas_device := failing_on 1 "L0";
     Calibration.measurement := PyStr "pH";
     Calibration.board_version := 1;
     Calibration.firmware_version := PyStr "1.0" |}.

(** The diagnostic stored when the stub reports generation 0. *)
Definition unknown_diagnostic : string :=
  Calibration.init_error_msg (PyStr "pH") 0 (PyStr "1.0").

(** A pH input on [iface] whose device answers the raw read with [reply],
    without temperature compensation. *)
Definition ph_input (iface : string) (reply : outcome response) : AtlasPh.InputModule :=
  {| AtlasPh.interface := iface;
     AtlasPh.atlas_device := Some (stub 2 reply);
     AtlasPh.atlas_command := None;
     AtlasPh.temperature_comp_meas_device_id := PyNone;
     AtlasPh.temperature_comp_meas_measurement_id := PyNone;
     AtlasPh.max_age := 120 |}.

(** The same input with compensation configured on the command object the
    constructor builds. *)
Definition compensated_input (iface : string) (reply : outcome response)
  : AtlasPh.InputModule :=
  {| AtlasPh.interface := iface;
     AtlasPh.atlas_device := Some (stub 2 reply);
     AtlasPh.atlas_command := Some (constructed iface 2);
     AtlasPh.temperature_comp_meas_device_id := PyStr "dev-1";
     AtlasPh.temperature_comp_meas_measurement_id := PyStr "meas-1";
     AtlasPh.max_age := 120 |}.

Definition no_sample (device_id measurement_id : pyval) (max_age : Z)
  : option (pyval * pyval) := None.

Definition one_sample (device_id measurement_id : pyval) (max_age : Z)
  : option (pyval * pyval) := Some (PyFloat "1560000000.0", PyFloat "25.0").

Definition is_digit (a : ascii) : bool :=
  (48 <=? nat_of_ascii a)%nat && (nat_of_ascii a <=? 57)%nat.

Fixpoint all_digits (s : string) : bool :=
  match s with
  | EmptyString => true
  | String a rest => is_digit a && all_digits rest
  end.

(** A recogniser of plain decimal literals ([7], [7.00], [.5]): a small
    part of what Python's [float] accepts, enough to run the examples. *)
Definition plain_decimal (s : string) : bool :=
  match split_on "."%char s with
  | [i] => negb (i =? EmptyString) && all_digits i
  | [i; f] => negb ((i ++ f) =? EmptyString) && all_digits i && all_digits f
  | _ => false
  end.

End Samples.

(* ================================================================== *)
(** * A state-and-exception monad over any history *)

(** The monad [M] above, with the type of the threaded state left open:
    used where a method leaves records that [event] does not have. *)
Module Eff.

Definition ST (S A : Type) : Type := S -> outcome A * S.

Definition ret {S A} (a : A) : ST S A := fun h => (Return a, h).

Definition raise {S A} (e : exn) : ST S A := fun h => (Raise e, h).

Definition bind {S A B} (m : ST S A) (k : A -> ST S B) : ST S B :=
  fun h => match m h with
           | (Return a, h') => k a h'
           | (Raise e, h') => (Raise e, h')
           end.

(** [try: body  except Exception as err: handler err] *)
Definition try_except {S A} (body : ST S A) (handler : exn -> ST S A) : ST S A :=
  fun h => match body h with
           | (Return a, h') => (Return a, h')
           | (Raise e, h') => handler e h'
           end.

Definition emit {S} (e : S) : ST (list S) unit := fun h => (Return tt, (h ++ [e])%list).

End Eff.

(* ================================================================== *)
(** * atlas_ph.py: the option constraint and the constructor *)

Module AtlasPhInit.

(** [constraints_pass_positive_value] (l.11-24).  The option it guards is
    of type integer. *)
Definition constraints_pass_positive_value {A} (mod_input : A) (value : Z)
  : bool * list string * A :=
  let errors : list string := [] in
  let all_passed := true in
  (* Ensure value is positive *)
  if (value <=? 0)%Z
  then (false, (errors ++ ["Must be a positive value"])%list, mod_input)
  else (all_passed, errors, mod_input).

(** The constructor leaves one record that the cycle does not: the
    [logger.exception] of l.128, which carries the exception caught. *)
Inductive record :=
| Core (e : event)
| LogException (msg : string) (err : exn).

Definition history := list record.

(** The records of a history that are events of the cycle. *)
Fixpoint core (h : history) : trace :=
  match h with
  | [] => []
  | Core e :: h' => e :: core h'
  | LogException _ _ :: h' => core h'
  end.

(** Runs a computation of [M] inside a history: it sees the events so far
    and its new events are appended. *)
Definition lift {A} (m : M A) : Eff.ST history A :=
  fun h =>
    let t := core h in
    let '(r, t') := m t in
    (r, (h ++ map Core (skipn (length t) t'))%list).

(** What the constructor leaves behind: with [testing] only the custom
    options are set (the object has no [interface] attribute); otherwise
    the state [get_measurement] reads. *)
Inductive built :=
| TestingStub (device_id measurement_id : pyval) (max_age : Z)
| Live (self : AtlasPh.InputModule).

Section Construct.

Variable float_parses : string -> bool.
Variable get_last_measurement : pyval -> pyval -> Z -> option (pyval * pyval).

(** The drivers' constructors as [initialize_sensor] calls them (l.136-145;
    the UART driver is opened without a baud rate here). *)
Variable open_sensor : Calibration.input_dev -> outcome device.

(** The drivers' constructors as [AtlasScientificCommand] calls them. *)
Variable connect : Calibration.input_dev -> outcome device.

(** [initialize_sensor] (l.134-145): the new value of [self.atlas_device],
    which stays [None] when no branch is taken. *)
Definition initialize_sensor (input_dev : Calibration.input_dev) (iface : string)
  : M (option device) :=
  if (iface =? "FTDI") || (iface =? "UART") || (iface =? "I2C") then
    d <- (fun t => (open_sensor input_dev, t)) ;;
    ret (Some d)
  else ret None.

(** [InputModule.__init__] (l.98-132).  [setup_custom_options] belongs to
    [AbstractInput], which is not among the sources: the three values it
    stores are taken as given. *)
Definition __init__
    (device_id measurement_id : pyval) (max_age : Z)
    (input_dev : Calibration.input_dev) (testing : bool)
  : Eff.ST history built :=
  if negb testing then
    let iface := Calibration.dev_interface input_dev in
    let self dev cmd :=
      {| AtlasPh.interface := iface;
         AtlasPh.atlas_device := dev;
         AtlasPh.atlas_command := cmd;
         AtlasPh.temperature_comp_meas_device_id := device_id;
         AtlasPh.temperature_comp_meas_measurement_id := measurement_id;
         AtlasPh.max_age := max_age |} in
    let caught dev err :=
      Eff.bind (Eff.emit (LogException "Exception while initializing sensor" err))
        (fun _ => Eff.ret (self dev None)) in
    Eff.bind
      (* One [try] block (l.121-128); an attribute assigned before the
         exception keeps its value. *)
      (Eff.try_except
         (Eff.bind (lift (initialize_sensor input_dev iface)) (fun dev =>
          if truthy measurement_id then
            Eff.try_except
              (Eff.bind (lift (Calibration.__init__ connect input_dev dev)) (fun cmd =>
               Eff.ret (self dev (Some cmd))))
              (caught dev)
          else Eff.ret (self dev None)))
         (caught None))
      (fun obj =>
         (* Throw out first measurement of Atlas Scientific sensor *)
         Eff.bind (lift (AtlasPh.get_measurement float_parses get_last_measurement obj))
           (fun _ => Eff.ret (Live obj)))
  else Eff.ret (TestingStub device_id measurement_id max_age).

(** The end of the constructor (l.131-132) on the object built so far: the
    first cycle, whose result is thrown away and whose exception is not. *)
Definition first_cycle (obj : AtlasPh.InputModule) : Eff.ST history built :=
  Eff.bind (lift (AtlasPh.get_measurement float_parses get_last_measurement obj))
    (fun _ => Eff.ret (Live obj)).

End Construct.

End AtlasPhInit.

(* ================================================================== *)
(** * bmp180.py *)

Module Bmp180.

(** The effects of a cycle. *)
Inductive event :=
| Sleep (ms : Z)          (* [time.sleep], in milliseconds *)
| ReadPressure            (* [self.bmp.read_pressure()] *)
| ReadTemperature.        (* [self.bmp.read_temperature()] *)

Definition trace := list event.

(** The driver object [BMP085] (Adafruit_BMP, not among the sources): each
    read answers according to what happened before, or fails. *)
Record BMP085 := {
  read_pressure : trace -> outcome pyval;
  read_temperature : trace -> outcome pyval
}.

(** One entry of a measurements dictionary; [ch_value = None] when the
    entry has no ['value'] key. *)
Record channel := {
  ch_measurement : string;
  ch_unit : string;
  ch_value : option pyval
}.

Definition return_dict := list (Z * channel).

(** [measurements_dict] (l.8-21), its entries holding the given values. *)
Definition measurements_holding (v0 v1 v2 : option pyval) : return_dict :=
  [ (0, {| ch_measurement := "pressure"; ch_unit := "Pa"; ch_value := v0 |});
    (1, {| ch_measurement := "temperature"; ch_unit := "C"; ch_value := v1 |});
    (2, {| ch_measurement := "altitude"; ch_unit := "m"; ch_value := v2 |}) ].

(** [measurements_dict] as the module defines it. *)
Definition measurements_dict : return_dict := measurements_holding None None None.

(** [value_set] of [AbstractInput] (not among the sources): the value is
    stored under ['value'] in the entry of the channel. *)
Definition value_set (chan : Z) (v : pyval) (d : return_dict) : return_dict :=
  map (fun '(i, c) =>
         if (i =? chan)%Z
         then (i, {| ch_measurement := ch_measurement c; ch_unit := ch_unit c;
                     ch_value := Some v |})
         else (i, c)) d.

(** The ['value'] of a channel, if the channel and the key exist. *)
Fixpoint value_at (chan : Z) (d : return_dict) : option pyval :=
  match d with
  | [] => None
  | (i, c) :: rest => if (i =? chan)%Z then ch_value c else value_at chan rest
  end.

(** [value_get] of [AbstractInput] (not among the sources): the value
    stored in the entry of the channel. *)
Definition value_get (chan : Z) (d : return_dict) : Eff.ST trace pyval :=
  match value_at chan d with
  | Some v => Eff.ret v
  | None => Eff.raise (Exn "KeyError" "'value'")
  end.

Section Cycle.

(** [is_enabled] of [AbstractInput] (not among the sources): whether the
    user selected the channel. *)
Variable is_enabled : Z -> bool.

(** [calculate_altitude] of mycodo/inputs/sensorutils.py (not among the
    sources). *)
Variable calculate_altitude : pyval -> pyval.

Definition call_read (e : event) (read : trace -> outcome pyval) : Eff.ST trace pyval :=
  fun t => (read t, (t ++ [e])%list).

(** [InputModule.get_measurement] (l.66-82).  [shared] is what
    [measurements_dict.copy()] holds when the cycle starts: the copy is
    shallow, so its entries are those of the module's dictionary. *)
Definition get_measurement (bmp : BMP085) (shared : return_dict)
  : Eff.ST trace return_dict :=
  Eff.bind (Eff.emit (Sleep 2000)) (fun _ =>
  let return_dict := shared in
  Eff.bind
    (if is_enabled 0 then
       Eff.bind (call_read ReadPressure (read_pressure bmp)) (fun p =>
       Eff.ret (value_set 0 p return_dict))
     else Eff.ret return_dict) (fun return_dict =>
  Eff.bind
    (if is_enabled 1 then
       Eff.bind (call_read ReadTemperature (read_temperature bmp)) (fun c =>
       Eff.ret (value_set 1 c return_dict))
     else Eff.ret return_dict) (fun return_dict =>
  Eff.bind
    (if is_enabled 2 && is_enabled 0 then
       Eff.bind (value_get 0 return_dict) (fun p =>
       Eff.ret (value_set 2 (calculate_altitude p) return_dict))
     else Eff.ret return_dict) (fun return_dict =>
  Eff.ret return_dict)))).

End Cycle.

End Bmp180.

(* ================================================================== *)
(** * More sample objects *)

Module MoreSamples.

(** A driver object whose [setup] flag is false. *)
Definition not_set_up_stub : device :=
  {| setup := false;
     get_board_version := (PyStr "pH", 2, PyStr "1.0");
     query := fun _ _ => Return (RPair "success" "7.00") |}.

(** A pH input with compensation configured whose device is [dev]. *)
Definition input_with (iface : string) (dev : option device) : AtlasPh.InputModule :=
  {| AtlasPh.interface := iface;
     AtlasPh.atlas_device := dev;
     AtlasPh.atlas_command := Some (Samples.constructed iface 2);
     AtlasPh.temperature_comp_meas_device_id := PyStr "dev-1";
     AtlasPh.temperature_comp_meas_measurement_id := PyStr "meas-1";
     AtlasPh.max_age := 120 |}.

Definition write_failed : exn := Exn "IOError" "write failed".

(** A driver whose constructor succeeds with the stub of generation 2
    answering [reply]. *)
Definition opens (reply : outcome response) (d : Calibration.input_dev) : outcome device :=
  Return (Samples.stub 2 reply).

(** A driver whose constructor fails. *)
Definition fails_to_open (d : Calibration.input_dev) : outcome device :=
  Raise (Exn "SerialException" "could not open port").

(** A BMP085 that reads 101325 Pa and 21.5 C. *)
Definition bmp : Bmp180.BMP085 :=
  {| Bmp180.read_pressure := fun _ => Return (PyInt 101325);
     Bmp180.read_temperature := fun _ => Return (PyFloat "21.5") |}.

(** A BMP085 whose pressure read fails. *)
Definition bmp_failing : Bmp180.BMP085 :=
  {| Bmp180.read_pressure := fun _ => Raise (Exn "IOError" "bus error");
     Bmp180.read_temperature := fun _ => Return (PyFloat "21.5") |}.

(** All three channels selected. *)
Definition all_enabled (chan : Z) : bool := true.

(** Only the altitude selected. *)
Definition altitude_only (chan : Z) : bool := (chan =? 2)%Z.

(** A stand-in for the altitude formula: the examples only need to see
    which pressure it is applied to. *)
Definition altitude_of (p : pyval) : pyval :=
  PyStr ("altitude(" ++ py_format p ++ ")").

End MoreSamples.

(* ================================================================== *)
(** * Properties of calibration.py *)

Unset Implicit Arguments.

Module CalibrationFacts.
Import Calibration.
Local Open Scope list_scope.

(** ** The constructor *)

(** What the constructor leaves behind: the attributes read by
    [send_command] are never bound, and the init fault is recorded exactly
    when the probe reports generation 0. *)
Lemma init_state connect dev sensor t0 self t1 :
  __init__ connect dev sensor t0 = (Return self, t1) ->
  ph_sensor_ftdi self = Unset /\
  ph_sensor_uart self = IsNone /\
  ph_sensor_i2c self = IsNone /\
  interface self = dev_interface dev /\
  init_error self =
    (if (board_version self =? 0)%Z
     then Some (init_error_msg (measurement self) (board_version self) (firmware_version self))
     else None).
Proof.
  unfold __init__, bind.
  set (opened := match sensor with Some s => ret s | None => _ end t0).
  destruct opened as [[d|e] t']; [|discriminate].
  destruct (get_board_version d) as [[meas brd] fw].
  destruct (brd =? 0)%Z eqn:Hb; cbn; intros H; inversion H; subst; cbn;
    rewrite Hb; repeat split; reflexivity.
Qed.

(** The sample objects are what the constructor builds. *)
Lemma constructed_by_init iface brd :
  exists t1,
    __init__ Samples.no_driver (Samples.input_on iface)
         (Some (Samples.stub brd Samples.ok_reply)) [] =
    (Return (Samples.constructed iface brd), t1).
Proof.
  unfold __init__, bind, Samples.constructed; cbn.
  destruct (brd =? 0)%Z; cbn; eexists; reflexivity.
Qed.

(** The stored diagnostic is never the empty string. *)
Lemma init_error_msg_nonempty meas brd fw :
  (init_error_msg meas brd fw =? EmptyString) = false.
Proof. reflexivity. Qed.

(** ** [send_command] *)

(** [queries] distributes over the concatenation of traces. *)
Lemma queries_app t t' : queries (t ++ t') = (queries t ++ queries t')%list.
Proof.
  induction t as [|e t IH]; [reflexivity|].
  destruct e; cbn; now rewrite IH.
Qed.

Ltac trace_attr a :=
  destruct a as [| |?d]; cbn;
  [ rewrite queries_app; reflexivity
  | rewrite queries_app; reflexivity
  | match goal with
    | |- context [query ?d ?t ?c] =>
        destruct (query d t c); cbn; rewrite !queries_app, <- app_assoc; reflexivity
    end ].

(** Case analysis on the attribute through which a query is dispatched,
    then on the transport's answer. *)
Ltac returned := cbn; do 2 eexists; reflexivity.

Ltac run_attr a :=
  destruct a as [| |?d];
  [ returned
  | returned
  | cbn;
    match goal with
    | |- context [query ?d ?t ?c] => destruct (query d t c); returned
    end ].

(** [send_command] absorbs every exception: it always returns a result. *)
Lemma send_command_returns self cmd t :
  exists r t', send_command self cmd t = (Return r, t').
Proof.
  unfold send_command, try_except, bind.
  destruct (is_none cmd); [returned|]; cbn.
  destruct (interface self =? "FTDI"); [run_attr (ph_sensor_ftdi self)|].
  destruct (interface self =? "UART"); [run_attr (ph_sensor_uart self)|].
  destruct (interface self =? "I2C"); [run_attr (ph_sensor_i2c self)|].
  returned.
Qed.

(** How the transport trace grows over one [send_command]: by the literal
    itself when the attribute read for the interface holds a transport, and
    by nothing otherwise. *)
Lemma send_command_queries self cmd t :
  queries (snd (send_command self cmd t)) =
  (queries t ++
   match bound_transport self with
   | Some _ => if is_none cmd then [] else [cmd]
   | None => []
   end)%list.
Proof.
  unfold send_command, try_except, bind, bound_transport.
  destruct (is_none cmd).
  - cbn. now destruct (if interface self =? "FTDI" then _ else _); rewrite app_nil_r.
  - cbn.
    destruct (interface self =? "FTDI"); [trace_attr (ph_sensor_ftdi self)|].
    destruct (interface self =? "UART"); [trace_attr (ph_sensor_uart self)|].
    destruct (interface self =? "I2C"); [trace_attr (ph_sensor_i2c self)|].
    cbn. rewrite queries_app. reflexivity.
Qed.

(** On an object whose transport attribute is bound, a literal is queried
    once; the answer is returned after the settle delay, and a failure of
    the transport is caught and returned. *)
Lemma send_command_dispatch self d cmd t :
  bound_transport self = Some d ->
  is_none cmd = false ->
  send_command self cmd t =
  match query d t cmd with
  | Return r =>
      (Return (PyInt 0, MResp r),
       t ++ [EQuery (interface_slot self) cmd; ESleep 100])
  | Raise e =>
      (Return (PyInt 1, MExc e),
       t ++ [EQuery (interface_slot self) cmd; ELog Error (LSendException e)])
  end.
Proof.
  unfold bound_transport, interface_slot, send_command, try_except, bind.
  intros Hb ->; cbn.
  destruct (interface self =? "FTDI");
    [|destruct (interface self =? "UART");
      [|destruct (interface self =? "I2C"); [|discriminate]]].
  all: match type of Hb with
       | match ?a with _ => _ end = _ => destruct a; try discriminate
       end;
       injection Hb as ->; cbn;
       destruct (query d t cmd); cbn; rewrite <- app_assoc; reflexivity.
Qed.

(** An object left behind by the constructor has no bound transport. *)
Lemma init_leaves_transport_unbound connect dev sensor t0 self t1 :
  __init__ connect dev sensor t0 = (Return self, t1) ->
  bound_transport self = None.
Proof.
  intros H. destruct (init_state _ _ _ _ _ _ H) as (Hf & Hu & Hi & _).
  unfold bound_transport. rewrite Hf, Hu, Hi.
  now destruct (interface self =? "FTDI"), (interface self =? "UART"),
    (interface self =? "I2C").
Qed.

(** So, whatever the literal, [send_command] on such an object never
    queries a transport. *)
Lemma constructed_never_queries connect dev sensor t0 self t1 cmd t :
  __init__ connect dev sensor t0 = (Return self, t1) ->
  queries (snd (send_command self cmd t)) = queries t.
Proof.
  intros H. rewrite send_command_queries.
  rewrite (init_leaves_transport_unbound _ _ _ _ _ _ H). apply app_nil_r.
Qed.

(** ** [calibrate] *)

Lemma named_cases command :
  str_in command named_commands = true -> In command named_commands.
Proof.
  unfold str_in. intros H. apply existsb_exists in H as (x & Hin & Heq).
  apply String.eqb_eq in Heq. now subst.
Qed.

(** Splits a goal about a named command into its eleven cases. *)
Ltac each_named H :=
  apply named_cases in H; cbn in H;
  repeat (destruct H as [H|H]; [subst|]); [..|contradiction].

(** Without a named command and without a custom literal nothing is sent. *)
Lemma calibrate_nothing_to_send self command x custom t :
  str_in command named_commands = false ->
  truthy custom = false ->
  calibrate self command x custom t = (Return (default_result self), t).
Proof.
  unfold str_in, named_commands; cbn [existsb].
  intros H Hc. repeat (apply orb_false_iff in H as [? H]).
  unfold calibrate.
  repeat match goal with
         | E : (command =? _) = false |- _ => rewrite E; clear E
         end.
  cbn. rewrite Hc. reflexivity.
Qed.

(** A named command on a board of generation 0 sends nothing either. *)
Lemma calibrate_named_unknown_board self command x custom t :
  board_version self = 0%Z ->
  str_in command named_commands = true ->
  calibrate self command x custom t = (Return (default_result self), t)
  \/ (command = "temperature" /\ x = PyNone).
Proof.
  intros Hv H. each_named H; unfold calibrate; rewrite Hv; cbn;
    try (left; reflexivity).
  destruct x; cbn; try (left; reflexivity). now right.
Qed.

(** ['temperature'] without an operand is not a named branch: the call
    falls through to the custom literal. *)
Lemma calibrate_temperature_without_operand self custom t :
  calibrate self "temperature" PyNone custom t =
  if truthy custom then send_command self custom t
  else (Return (default_result self), t).
Proof. unfold calibrate; cbn. now destruct (truthy custom). Qed.

(** ** The specification on [send_command] *)

(** C4 (as stated, refuted): the empty string is not treated as an absent
    literal.  On the object the constructor builds, [send_command] of the
    empty string enters the dispatch and returns the caught exception, not
    "No command given"; on an object whose transport is bound, the empty
    literal is queried. *)
Lemma send_command_empty_literal_counterexample :
  send_command (Samples.constructed "I2C" 2) (PyStr EmptyString) [] =
    (Return (PyInt 1, MExc (AttributeError "'NoneType' object has no attribute 'query'")),
     [ELog Error (LSendException
        (AttributeError "'NoneType' object has no attribute 'query'"))])
  /\ send_command (Samples.constructed "I2C" 2) (PyStr EmptyString) [] <>
       (Return (PyInt 1, MStr "No command given"), [])
  /\ send_command (Samples.with_i2c_transport 2 Samples.ok_reply) (PyStr EmptyString) [] =
       (Return (PyInt 0, MResp (RPair "success" "OK")),
        [EQuery ph_sensor_i2c_slot (PyStr EmptyString); ESleep 100]).
Proof. repeat split. discriminate. Qed.

(** C4 (amended): [send_command(None)] returns (1, "No command given")
    and has no effect at all: no transport query, no sleep, no log. *)
Theorem send_command_none self t :
  send_command self PyNone t = (Return (PyInt 1, MStr "No command given"), t).
Proof. reflexivity. Qed.

(** C10: for a literal that is not [None], when the interface is none of
    FTDI, UART and I2C, [send_command] queries no transport, sleeps the
    100 ms settle delay and returns status 0 with the message
    "No message". *)
Theorem send_command_unknown_interface self cmd t :
  cmd <> PyNone ->
  interface self <> "FTDI" ->
  interface self <> "UART" ->
  interface self <> "I2C" ->
  send_command self cmd t =
    (Return (PyInt 0, MStr "No message"), t ++ [ESleep 100])
  /\ queries (snd (send_command self cmd t)) = queries t.
Proof.
  intros Hc Hf Hu Hi.
  apply String.eqb_neq in Hf, Hu, Hi.
  assert (Hn : is_none cmd = false) by (destruct cmd; [contradiction|reflexivity..]).
  assert (E : send_command self cmd t =
              (Return (PyInt 0, MStr "No message"), t ++ [ESleep 100])).
  { unfold send_command, try_except, bind. rewrite Hn, Hf, Hu, Hi. reflexivity. }
  split; [exact E|].
  rewrite E; cbn. rewrite queries_app. apply app_nil_r.
Qed.

(** C10 on an object whose interface is "SPI". *)
Lemma send_command_unknown_interface_witness :
  send_command (Samples.constructed "SPI" 2) (PyStr "R") [] =
    (Return (PyInt 0, MStr "No message"), [ESleep 100])
  /\ queries (snd (send_command (Samples.constructed "SPI" 2) (PyStr "R") [])) = [].
Proof.
  apply (@send_command_unknown_interface (Samples.constructed "SPI" 2) (PyStr "R") []);
    discriminate.
Defined.

(** C3 (the code on the failing inputs): on every object the
    constructor builds for FTDI, UART or I2C, [send_command] of a literal
    that is not [None] queries no transport and does not sleep: reading
    the attribute it dispatches through raises [AttributeError], which is
    logged and returned with status 1. *)
Theorem send_command_after_init_fails connect dev sensor t0 self t1 cmd t :
  __init__ connect dev sensor t0 = (Return self, t1) ->
  interface self = "FTDI" \/ interface self = "UART" \/ interface self = "I2C" ->
  cmd <> PyNone ->
  exists msg,
    send_command self cmd t =
      (Return (PyInt 1, MExc (AttributeError msg)),
       t ++ [ELog Error (LSendException (AttributeError msg))])
    /\ queries (snd (send_command self cmd t)) = queries t.
Proof.
  intros Hinit Hi Hc.
  destruct (init_state _ _ _ _ _ _ Hinit) as (Hf & Hu & Hi2c & _).
  assert (Hn : is_none cmd = false) by (destruct cmd; [contradiction|reflexivity..]).
  assert (E : exists msg, send_command self cmd t =
      (Return (PyInt 1, MExc (AttributeError msg)),
       t ++ [ELog Error (LSendException (AttributeError msg))])).
  { unfold send_command, try_except, bind. rewrite Hn, Hf, Hu, Hi2c.
    destruct Hi as [-> | [-> | ->]]; cbn; eexists; reflexivity. }
  destruct E as (msg & E). exists msg. split; [exact E|].
  rewrite E; cbn. rewrite queries_app. apply app_nil_r.
Qed.

(** The failing input of C3, run on the three interfaces. *)
Lemma send_command_after_init_fails_witness :
  exists msg,
    send_command (Samples.constructed "I2C" 2) (PyStr "R") [] =
      (Return (PyInt 1, MExc (AttributeError msg)),
       [ELog Error (LSendException (AttributeError msg))])
    /\ queries (snd (send_command (Samples.constructed "I2C" 2) (PyStr "R") [])) = [].
Proof.
  apply (send_command_after_init_fails Samples.no_driver (Samples.input_on "I2C")
           (Some (Samples.stub 2 Samples.ok_reply)) []
           (Samples.constructed "I2C" 2)
           [ELog Debug (LInitSuccess (PyStr "pH") 2 (PyStr "1.0"))]
           (PyStr "R") []).
  - reflexivity.
  - right; right; reflexivity.
  - discriminate.
Defined.

(** The three exceptions, as raised. *)
Example send_command_on_constructed_objects :
  send_command (Samples.constructed "FTDI" 2) (PyStr "R") [] =
    (Return (PyInt 1, MExc (AttributeError
       "'AtlasScientificCommand' object has no attribute 'ph_sensor_ftdi'")),
     [ELog Error (LSendException (AttributeError
       "'AtlasScientificCommand' object has no attribute 'ph_sensor_ftdi'"))])
  /\ send_command (Samples.constructed "UART" 2) (PyStr "R") [] =
    (Return (PyInt 1, MExc (AttributeError "'NoneType' object has no attribute 'query'")),
     [ELog Error (LSendException
        (AttributeError "'NoneType' object has no attribute 'query'"))])
  /\ send_command (Samples.constructed "I2C" 2) (PyStr "R") [] =
    (Return (PyInt 1, MExc (AttributeError "'NoneType' object has no attribute 'query'")),
     [ELog Error (LSendException
        (AttributeError "'NoneType' object has no attribute 'query'"))]).
Proof. repeat split. Qed.

(** ** The specification on [calibrate] *)

(** C1 (as stated, refuted): with the init fault recorded (generation 0),
    a call that carries a custom literal and no named command still goes
    to [send_command].  On the constructed object the message returned is
    the caught exception, not the stored diagnostic; on an object whose
    transport is bound, the literal is queried. *)
Lemma calibrate_unknown_custom_counterexample :
  init_error (Samples.constructed "I2C" 0) = Some Samples.unknown_diagnostic
  /\ calibrate (Samples.constructed "I2C" 0) "status" PyNone (PyStr "Status") [] =
       (Return (PyInt 1, MExc (AttributeError "'NoneType' object has no attribute 'query'")),
        [ELog Error (LSendException
           (AttributeError "'NoneType' object has no attribute 'query'"))])
  /\ option_map snd
       (fst_of (calibrate (Samples.constructed "I2C" 0) "status" PyNone (PyStr "Status") []))
       <> Some (MStr Samples.unknown_diagnostic)
  /\ queries (snd (calibrate (Samples.with_i2c_transport 0 Samples.ok_reply)
                     "status" PyNone (PyStr "Status") [])) = [PyStr "Status"].
Proof. repeat split. discriminate. Qed.

(** C1 (amended): when the probe reports generation 0, every call of
    [calibrate] that resolves to a named command, or that carries no
    custom literal, returns status 1 with the stored init diagnostic and
    has no effect: nothing is sent and no transport is queried. *)
Theorem calibrate_unknown_generation
    connect dev sensor t0 self t1 command x custom t :
  __init__ connect dev sensor t0 = (Return self, t1) ->
  board_version self = 0%Z ->
  resolves_named command x = true \/ truthy custom = false ->
  init_error self =
    Some (init_error_msg (measurement self) 0 (firmware_version self))
  /\ calibrate self command x custom t =
       (Return (PyInt 1,
                MStr (init_error_msg (measurement self) 0 (firmware_version self))), t).
Proof.
  intros Hinit Hv Hcase.
  destruct (init_state _ _ _ _ _ _ Hinit) as (_ & _ & _ & _ & Herr).
  rewrite Hv, Z.eqb_refl in Herr.
  split; [exact Herr|].
  assert (Hd : default_result self =
               (PyInt 1, MStr (init_error_msg (measurement self) 0 (firmware_version self))))
    by (unfold default_result; now rewrite Herr, init_error_msg_nonempty).
  rewrite <- Hd.
  destruct (str_in command named_commands) eqn:Hn.
  - destruct (calibrate_named_unknown_board self command x custom t Hv Hn) as [E|[-> ->]];
      [exact E|].
    rewrite calibrate_temperature_without_operand.
    destruct Hcase as [Hr|Hc]; [discriminate Hr|now rewrite Hc].
  - destruct Hcase as [Hr|Hc].
    + unfold resolves_named in Hr. now rewrite Hn in Hr.
    + now apply calibrate_nothing_to_send.
Qed.

(** C1 (amended) on the object built from a probe reporting generation 0:
    the named command wins over the custom literal and nothing happens. *)
Lemma calibrate_unknown_generation_witness :
  init_error (Samples.constructed "I2C" 0) = Some Samples.unknown_diagnostic
  /\ calibrate (Samples.constructed "I2C" 0) "low" PyNone (PyStr "Status") [] =
       (Return (PyInt 1, MStr Samples.unknown_diagnostic), []).
Proof.
  apply (@calibrate_unknown_generation Samples.no_driver (Samples.input_on "I2C")
           (Some (Samples.stub 0 Samples.ok_reply)) []
           (Samples.constructed "I2C" 0)
           [ELog Error (LInitFailed Samples.unknown_diagnostic)]
           "low" PyNone (PyStr "Status") []).
  - reflexivity.
  - reflexivity.
  - left; reflexivity.
Defined.

(** C5 (as stated, refuted): on a legacy board, [calibrated] returns the
    status ['success'] with a fixed message, but the text is not the one
    the specification quotes. *)
Lemma legacy_calibrated_message_counterexample :
  calibrate (Samples.constructed "I2C" 1) "calibrated" PyNone PyNone [] =
    (Return (PyStr "success",
             MStr "Calibrated query not implemented on board version 1 (assume it was successfully calibrated)"),
     [])
  /\ calibrate (Samples.constructed "I2C" 1) "calibrated" PyNone PyNone [] <>
     run_entry (Samples.constructed "I2C" 1) (spec_table "calibrated" 1 PyNone) [].
Proof. split; [reflexivity|discriminate]. Qed.

(** C5 (amended): on a board of generation 1 or 2 without init fault,
    [calibrate] does for every named command what the table of section 4.2
    prescribes for the pair (each literal exactly as shown, unsupported
    pairs send nothing and give (1, "Default message"), the legacy
    [calibrated] pair sends nothing and gives status ['success']), the
    legacy [calibrated] message being "Calibrated query not implemented on
    board version 1 (assume it was successfully calibrated)"; a command
    outside the set, without custom literal, is unsupported as well. *)
Theorem calibrate_follows_table self command x custom t :
  init_error self = None ->
  board_version self = 1%Z \/ board_version self = 2%Z ->
  resolves_named command x = true
    \/ (str_in command named_commands = false /\ truthy custom = false) ->
  calibrate self command x custom t =
  run_entry self
    (translation_table calibrated_legacy_msg command (board_version self) x) t.
Proof.
  intros Herr Hv [Hr|[Hn Hc]].
  - unfold resolves_named in Hr. apply andb_true_iff in Hr as [Hn Hx].
    each_named Hn; unfold calibrate, translation_table; rewrite Herr;
      destruct Hv as [-> | ->]; cbn in *; try reflexivity.
    all: destruct x; cbn in *; try discriminate; reflexivity.
  - rewrite calibrate_nothing_to_send by assumption.
    unfold default_result; rewrite Herr.
    unfold translation_table, str_in, named_commands in *; cbn [existsb] in Hn.
    repeat (apply orb_false_iff in Hn as [? Hn]).
    repeat match goal with
           | E : (command =? _) = false |- _ => rewrite E; clear E
           end.
    reflexivity.
Qed.

(** C5 (amended) on a current board: [temperature] with operand 25.0. *)
Lemma calibrate_follows_table_witness :
  calibrate (Samples.constructed "I2C" 2) "temperature" (PyFloat "25.0") PyNone [] =
  run_entry (Samples.constructed "I2C" 2) (Literal (PyStr "T,25.0")) [].
Proof.
  apply (@calibrate_follows_table (Samples.constructed "I2C" 2)
           "temperature" (PyFloat "25.0") PyNone []).
  - reflexivity.
  - right; reflexivity.
  - left; reflexivity.
Defined.

(** C8 (as stated, refuted): ['temperature'] without an operand does not
    take precedence over a custom literal.  The call behaves differently
    with and without the literal, and on an object whose transport is
    bound the literal is queried. *)
Lemma temperature_without_operand_counterexample :
  str_in "temperature" named_commands = true
  /\ calibrate (Samples.constructed "I2C" 2) "temperature" PyNone (PyStr "Status") [] <>
     calibrate (Samples.constructed "I2C" 2) "temperature" PyNone PyNone []
  /\ queries (snd (calibrate (Samples.with_i2c_transport 2 Samples.ok_reply)
                     "temperature" PyNone (PyStr "Status") [])) = [PyStr "Status"].
Proof. repeat split. discriminate. Qed.

(** C8 (amended): when a call of [calibrate] carries a named command and
    a custom literal, the named command takes precedence and the literal
    is ignored (the call does exactly what it does without the literal),
    except for ['temperature'] without an operand, where the call falls
    through and sends the custom literal. *)
Theorem named_command_precedence self command x custom t :
  (resolves_named command x = true ->
   calibrate self command x custom t = calibrate self command x PyNone t)
  /\ (truthy custom = true ->
      calibrate self "temperature" PyNone custom t = send_command self custom t).
Proof.
  split.
  - intros Hr. unfold resolves_named in Hr. apply andb_true_iff in Hr as [Hn Hx].
    each_named Hn; unfold calibrate; cbn in *; try reflexivity.
    destruct x; cbn in *; try discriminate; reflexivity.
  - intros Hc. rewrite calibrate_temperature_without_operand. now rewrite Hc.
Qed.

(** C8 (amended) on an object with a bound transport. *)
Lemma named_command_precedence_witness :
  calibrate (Samples.with_i2c_transport 2 Samples.ok_reply) "low" PyNone (PyStr "Status") [] =
    calibrate (Samples.with_i2c_transport 2 Samples.ok_reply) "low" PyNone PyNone []
  /\ calibrate (Samples.with_i2c_transport 2 Samples.ok_reply)
       "temperature" PyNone (PyStr "Status") [] =
     send_command (Samples.with_i2c_transport 2 Samples.ok_reply) (PyStr "Status") [].
Proof.
  destruct (@named_command_precedence (Samples.with_i2c_transport 2 Samples.ok_reply)
              "low" PyNone (PyStr "Status") []) as [H1 H2].
  split; [apply H1; reflexivity | apply H2; reflexivity].
Defined.

(** C9: on a legacy board (generation 1), [calibrate('clear_calibration')]
    performs exactly two sends, ['X'] and then ['L0'], each of which
    returns whatever happens on the transport, and reports the result of
    the first one only; where a transport is bound, it is queried with
    these two literals, in this order. *)
Theorem legacy_clear_calibration self x custom t :
  board_version self = 1%Z ->
  exists r1 t1 r2 t2,
    send_command self (PyStr "X") t = (Return r1, t1)
    /\ send_command self (PyStr "L0") t1 = (Return r2, t2)
    /\ calibrate self "clear_calibration" x custom t = (Return r1, t2)
    /\ queries t2 =
       queries t ++ match bound_transport self with
                    | Some _ => [PyStr "X"; PyStr "L0"]
                    | None => []
                    end.
Proof.
  intros Hv.
  destruct (send_command_returns self (PyStr "X") t) as (r1 & t1 & E1).
  destruct (send_command_returns self (PyStr "L0") t1) as (r2 & t2 & E2).
  exists r1, t1, r2, t2. repeat split; try assumption.
  - unfold calibrate. rewrite Hv; cbn. unfold bind. now rewrite E1, E2.
  - pose proof (send_command_queries self (PyStr "X") t) as Q1.
    pose proof (send_command_queries self (PyStr "L0") t1) as Q2.
    rewrite E1 in Q1. rewrite E2 in Q2. cbn in Q1, Q2.
    rewrite Q2, Q1. destruct (bound_transport self).
    + now rewrite <- app_assoc.
    + now rewrite !app_nil_r.
Qed.

(** C9 on a legacy object whose transport fails on [L0]. *)
Lemma legacy_clear_calibration_witness :
  exists r1 t1 r2 t2,
    send_command Samples.legacy_failing_l0 (PyStr "X") [] = (Return r1, t1)
    /\ send_command Samples.legacy_failing_l0 (PyStr "L0") t1 = (Return r2, t2)
    /\ calibrate Samples.legacy_failing_l0 "clear_calibration" PyNone PyNone [] =
       (Return r1, t2)
    /\ queries t2 = [PyStr "X"; PyStr "L0"].
Proof.
  apply (@legacy_clear_calibration Samples.legacy_failing_l0 PyNone PyNone []).
  reflexivity.
Defined.

(** The same call, run: the second send fails on the transport and the
    result is still the answer to ['X']. *)
Example second_send_failure_is_not_reported :
  calibrate Samples.legacy_failing_l0 "clear_calibration" PyNone PyNone [] =
    (Return (PyInt 0, MResp (RPair "success" "OK")),
     [EQuery ph_sensor_i2c_slot (PyStr "X"); ESleep 100;
      EQuery ph_sensor_i2c_slot (PyStr "L0");
      ELog Error (LSendException (Exn "IOError" "write failed"))]).
Proof. reflexivity. Qed.

End CalibrationFacts.

(* ================================================================== *)
(** * Properties of atlas_ph.py *)

Module AtlasPhFacts.
Import AtlasPh.
Local Open Scope list_scope.

Lemma str_in_In x l : str_in x l = true <-> In x l.
Proof.
  unfold str_in. rewrite existsb_exists. split.
  - intros (y & Hin & Heq). apply String.eqb_eq in Heq. now subst.
  - intros Hin. exists x. split; [exact Hin|apply String.eqb_refl].
Qed.

Lemma str_in_not_In x l : str_in x l = false <-> ~ In x l.
Proof.
  rewrite <- str_in_In. destruct (str_in x l); split; congruence.
Qed.

(** [calibrate] always returns: every send absorbs its own failure. *)
Lemma calibrate_returns self command x custom t :
  exists r t', Calibration.calibrate self command x custom t = (Return r, t').
Proof.
  unfold Calibration.calibrate.
  repeat match goal with
         | |- context [if ?b then _ else _] => destruct b
         end;
    try apply CalibrationFacts.send_command_returns;
    try (do 2 eexists; reflexivity).
  unfold bind.
  destruct (CalibrationFacts.send_command_returns self (PyStr "X") t) as (r1 & t1 & ->).
  destruct (CalibrationFacts.send_command_returns self (PyStr "L0") t1) as (r2 & t2 & ->).
  do 2 eexists; reflexivity.
Qed.

Section Cycle.

Variable float_parses : string -> bool.
Variable get_last_measurement : pyval -> pyval -> Z -> option (pyval * pyval).

Abbreviation compensate := (AtlasPh.compensate get_last_measurement).
Abbreviation read_serial := (AtlasPh.read_serial float_parses).
Abbreviation read_i2c := (AtlasPh.read_i2c float_parses).
Abbreviation get_measurement := (AtlasPh.get_measurement float_parses get_last_measurement).
Abbreviation str_is_float := (AtlasPh.str_is_float float_parses).

(** The scan of l.190-194 finds the first line that parses as a float. *)
Lemma first_accepted_find lines :
  first_accepted str_is_float lines = find float_parses lines.
Proof.
  induction lines as [|l lines IH]; [reflexivity|].
  cbn. now destruct (float_parses l).
Qed.

(** What it finds does parse. *)
Lemma find_parses lines text :
  find float_parses lines = Some text -> float_parses text = true.
Proof. intros H. now apply find_some in H. Qed.

(** The compensation step always completes, whatever the calibration
    call returns. *)
Lemma compensate_returns self t :
  exists t1, compensate self t = (Return tt, t1).
Proof.
  unfold AtlasPh.compensate.
  match goal with
  | |- context [match ?c with Some _ => _ | None => _ end t] =>
      destruct c as [cmd|]; [|eexists; reflexivity]
  end.
  unfold bind, log, sleep, emit.
  destruct (get_last_measurement _ _ _) as [[tm temp]|]; [|eexists; reflexivity].
  destruct (calibrate_returns cmd "temperature" temp PyNone
              ((t ++ [ELog Debug LCalibrateTemperature]) ++
               [ELog Debug (LLatestTemperature temp)])) as ([st msg] & t' & ->).
  eexists; reflexivity.
Qed.

(** A cycle on a device that is set up: compensation, then the reader of
    the interface, then [value_set]. *)
Lemma get_measurement_steps self dev t0 t1 :
  atlas_device self = Some dev ->
  setup dev = true ->
  compensate self t0 = (Return tt, t1) ->
  get_measurement self t0 =
  finish ((if (interface self =? "FTDI") || (interface self =? "UART") then read_serial dev
           else if interface self =? "I2C" then read_i2c dev
           else ret None) t1).
Proof.
  intros Hd Hs Hc. unfold AtlasPh.get_measurement, bind.
  rewrite Hd; cbn. rewrite Hs; cbn. rewrite Hc.
  match goal with |- _ = finish ?r => destruct r as [[ph|e] t2] end; reflexivity.
Qed.

Lemma value_at_value_set v :
  value_at 0 (value_set 0 v measurements_dict) = Some v.
Proof. reflexivity. Qed.

(** The serial reader, by cases on the lines returned. *)
Lemma read_serial_cases dev status lines t :
  query dev t (PyStr "R") = Return (RLines status lines) ->
  read_serial dev t =
  let t' := t ++ [EQuery atlas_device_slot (PyStr "R")] ++ returned_list_log lines in
  if str_in "check probe" lines then (Return None, t' ++ [ELog Error LCheckProbe])
  else match find float_parses lines with
       | Some text =>
           (Return (Some (FloatOf text)), t' ++ [ELog Debug (LFoundFloat (FloatOf text))])
       | None => (Return None, t' ++ [ELog Error (LValueNotFound lines)])
       end.
Proof.
  intros Hq. unfold AtlasPh.read_serial, bind, call_query. rewrite Hq.
  rewrite first_accepted_find.
  assert (Ht : (let (o, t') :=
                  match lines with
                  | [] => ret tt
                  | _ :: _ => log Debug (LReturnedList lines)
                  end (t ++ [EQuery atlas_device_slot (PyStr "R")]) in
                (o, t')) =
               (Return tt,
                t ++ [EQuery atlas_device_slot (PyStr "R")] ++ returned_list_log lines)).
  { destruct lines; cbn; [reflexivity | now rewrite <- app_assoc]. }
  destruct (match lines with [] => ret tt | _ :: _ => _ end
              (t ++ [EQuery atlas_device_slot (PyStr "R")])) as [o t'].
  injection Ht as -> ->. cbn zeta.
  destruct (str_in "check probe" lines); [reflexivity|].
  destruct (find float_parses lines) as [text|] eqn:Hf; cbn; [|reflexivity].
  rewrite (find_parses _ _ Hf). unfold AtlasPh.py_float. rewrite (find_parses _ _ Hf).
  reflexivity.
Qed.

(** The I2C reader, by cases on the status and the payload returned. *)
Lemma read_i2c_cases dev status payload t :
  query dev t (PyStr "R") = Return (RPair status payload) ->
  read_i2c dev t =
  let t' := t ++ [EQuery atlas_device_slot (PyStr "R")] in
  let whole :=
    if float_parses payload then (Return (Some (FloatOf payload)), t')
    else (Return None, t' ++ [ELog Error (LCouldNotDetermine payload)]) in
  if status =? "error" then
    (Return None, t' ++ [ELog Error (LReadUnsuccessful payload)])
  else if status =? "success" then
    if contains_char comma payload then
      match nth_error (split_on comma payload) 2 with
      | Some field =>
          if float_parses field then (Return (Some (FloatOf field)), t') else whole
      | None => (Raise (IndexError "list index out of range"), t')
      end
    else whole
  else (Return None, t').
Proof.
  intros Hq. unfold AtlasPh.read_i2c, bind, call_query. rewrite Hq. cbn zeta.
  destruct (status =? "error"); [reflexivity|].
  destruct (status =? "success"); [|reflexivity].
  unfold index, AtlasPh.py_float.
  destruct (contains_char comma payload).
  - destruct (nth_error (split_on comma payload) 2) as [field|]; [|reflexivity].
    cbn. destruct (float_parses field); cbn; [reflexivity|].
    destruct (float_parses payload); reflexivity.
  - cbn. destruct (float_parses payload); reflexivity.
Qed.

(** ** The specification on [get_measurement] *)

(** C6: on FTDI or UART, with the device set up, the cycle completes
    compensation and, for every list of lines the raw read returns: if a
    line equals "check probe", no pH value is set and the probe fault is
    logged, whether or not another line parses as a float; otherwise the
    reading is the first line, in order, that parses as a float; and if
    there is none, no pH value is set and the value-not-found diagnostic
    is logged. *)
Theorem serial_parse self dev status lines t0 :
  interface self = "FTDI" \/ interface self = "UART" ->
  atlas_device self = Some dev ->
  setup dev = true ->
  exists t1,
    compensate self t0 = (Return tt, t1)
    /\ (query dev t1 (PyStr "R") = Return (RLines status lines) ->
        let t2 := t1 ++ [EQuery atlas_device_slot (PyStr "R")] ++ returned_list_log lines in
        (In "check probe" lines ->
         get_measurement self t0 =
           (Return (Some (value_set 0 None measurements_dict)),
            t2 ++ [ELog Error LCheckProbe]))
        /\ (~ In "check probe" lines ->
            forall text, find float_parses lines = Some text ->
            get_measurement self t0 =
              (Return (Some (value_set 0 (Some (FloatOf text)) measurements_dict)),
               t2 ++ [ELog Debug (LFoundFloat (FloatOf text))]))
        /\ (~ In "check probe" lines ->
            find float_parses lines = None ->
            get_measurement self t0 =
              (Return (Some (value_set 0 None measurements_dict)),
               t2 ++ [ELog Error (LValueNotFound lines)]))).
Proof.
  intros Hi Hd Hs.
  destruct (compensate_returns self t0) as (t1 & Hc).
  exists t1. split; [exact Hc|]. intros Hq t2.
  assert (Hserial : (interface self =? "FTDI") || (interface self =? "UART") = true)
    by (destruct Hi as [-> | ->]; reflexivity).
  rewrite (get_measurement_steps self dev t0 t1 Hd Hs Hc), Hserial.
  rewrite (read_serial_cases dev status lines t1 Hq). cbn zeta. fold t2.
  repeat split.
  - intros Hin. apply str_in_In in Hin. now rewrite Hin.
  - intros Hnin text Hf. apply str_in_not_In in Hnin. now rewrite Hnin, Hf.
  - intros Hnin Hf. apply str_in_not_In in Hnin. now rewrite Hnin, Hf.
Qed.

(** C7 (amended): on I2C, with the device set up, the cycle completes
    compensation and, for the (status, payload) pair the raw read returns:
    status "error" logs the payload as diagnostic and sets no value;
    status "success" with a comma-containing payload whose field of index
    2 parses as a float yields that field; status "success" with a
    payload that has no comma, or whose field of index 2 exists and does
    not parse, yields the whole payload when it parses as a float and
    otherwise logs the could-not-determine diagnostic and sets no value;
    any other status sets no value and logs nothing. *)
Theorem i2c_parse self dev status payload t0 :
  interface self = "I2C" ->
  atlas_device self = Some dev ->
  setup dev = true ->
  exists t1,
    compensate self t0 = (Return tt, t1)
    /\ (query dev t1 (PyStr "R") = Return (RPair status payload) ->
        let t2 := t1 ++ [EQuery atlas_device_slot (PyStr "R")] in
        let third := nth_error (split_on comma payload) 2 in
        let falls_to_whole :=
          contains_char comma payload = false
          \/ exists field, third = Some field /\ float_parses field = false in
        (status = "error" ->
         get_measurement self t0 =
           (Return (Some (value_set 0 None measurements_dict)),
            t2 ++ [ELog Error (LReadUnsuccessful payload)]))
        /\ (status = "success" ->
            contains_char comma payload = true ->
            forall field, third = Some field -> float_parses field = true ->
            get_measurement self t0 =
              (Return (Some (value_set 0 (Some (FloatOf field)) measurements_dict)), t2))
        /\ (status = "success" -> falls_to_whole ->
            float_parses payload = true ->
            get_measurement self t0 =
              (Return (Some (value_set 0 (Some (FloatOf payload)) measurements_dict)), t2))
        /\ (status = "success" -> falls_to_whole ->
            float_parses payload = false ->
            get_measurement self t0 =
              (Return (Some (value_set 0 None measurements_dict)),
               t2 ++ [ELog Error (LCouldNotDetermine payload)]))
        /\ (status <> "error" -> status <> "success" ->
            get_measurement self t0 =
              (Return (Some (value_set 0 None measurements_dict)), t2))).
Proof.
  intros Hi Hd Hs.
  destruct (compensate_returns self t0) as (t1 & Hc).
  exists t1. split; [exact Hc|]. intros Hq t2 third falls_to_whole.
  rewrite (get_measurement_steps self dev t0 t1 Hd Hs Hc), Hi.
  cbn [String.eqb Ascii.eqb Bool.eqb orb].
  rewrite (read_i2c_cases dev status payload t1 Hq). cbn zeta. fold t2. fold third.
  repeat split.
  - intros ->. reflexivity.
  - intros -> Hcomma field Hf Hp. cbn [String.eqb Ascii.eqb Bool.eqb].
    now rewrite Hcomma, Hf, Hp.
  - intros -> Hw Hp. cbn [String.eqb Ascii.eqb Bool.eqb].
    destruct Hw as [Hcomma | (field & Hf & Hnp)].
    + now rewrite Hcomma, Hp.
    + rewrite Hf, Hnp, Hp. now destruct (contains_char comma payload).
  - intros -> Hw Hp. cbn [String.eqb Ascii.eqb Bool.eqb].
    destruct Hw as [Hcomma | (field & Hf & Hnp)].
    + now rewrite Hcomma, Hp.
    + rewrite Hf, Hnp, Hp. now destruct (contains_char comma payload).
  - intros He Hsu. apply String.eqb_neq in He, Hsu. now rewrite He, Hsu.
Qed.

(** A payload has one more field than it has separators. *)
Lemma split_on_length c s :
  length (split_on c s) = S (count_char c s).
Proof.
  induction s as [|a rest IH]; [reflexivity|].
  cbn. destruct (Ascii.eqb a c); cbn; [now rewrite IH|].
  destruct (split_on c rest); [discriminate IH|exact IH].
Qed.

(** C2 (the code on the failing inputs): on I2C, with the device set up,
    whenever the raw read answers "success" with a payload that contains
    a comma and has fewer than three comma-delimited fields, the cycle
    raises [IndexError] out of [get_measurement]: no value is stored and
    no diagnostic is logged. *)
Theorem short_payload_escapes self dev payload t0 :
  interface self = "I2C" ->
  atlas_device self = Some dev ->
  setup dev = true ->
  exists t1,
    compensate self t0 = (Return tt, t1)
    /\ (query dev t1 (PyStr "R") = Return (RPair "success" payload) ->
        contains_char comma payload = true ->
        (length (split_on comma payload) < 3)%nat ->
        get_measurement self t0 =
          (Raise (IndexError "list index out of range"),
           t1 ++ [EQuery atlas_device_slot (PyStr "R")])).
Proof.
  intros Hi Hd Hs.
  destruct (compensate_returns self t0) as (t1 & Hc).
  exists t1. split; [exact Hc|]. intros Hq Hcomma Hlen.
  rewrite (get_measurement_steps self dev t0 t1 Hd Hs Hc), Hi.
  cbn [String.eqb Ascii.eqb Bool.eqb orb].
  rewrite (read_i2c_cases dev "success" payload t1 Hq). cbn zeta.
  cbn [String.eqb Ascii.eqb Bool.eqb]. rewrite Hcomma.
  assert (Hnone : nth_error (split_on comma payload) 2 = None)
    by (apply nth_error_None; lia).
  now rewrite Hnone.
Qed.

End Cycle.

(** ** Closed instances *)

Lemma serial_parse_witness :
  AtlasPh.get_measurement Samples.plain_decimal Samples.no_sample
    (Samples.ph_input "UART" (Return (RLines "success" ["check probe"; "7.00"]))) [] =
  (Return (Some (value_set 0 None measurements_dict)),
   [EQuery atlas_device_slot (PyStr "R");
    ELog Debug (LReturnedList ["check probe"; "7.00"]);
    ELog Error LCheckProbe]).
Proof.
  destruct (serial_parse Samples.plain_decimal Samples.no_sample
              (Samples.ph_input "UART" (Return (RLines "success" ["check probe"; "7.00"])))
              (Samples.stub 2 (Return (RLines "success" ["check probe"; "7.00"])))
              "success" ["check probe"; "7.00"] []
              (or_intror eq_refl) eq_refl eq_refl) as (t1 & Hc & H).
  cbn in Hc. injection Hc as <-.
  apply (H eq_refl). left; reflexivity.
Defined.

(** C7 (amended) on the payload of the end-to-end example (P7). *)
Lemma i2c_parse_witness :
  AtlasPh.get_measurement Samples.plain_decimal Samples.no_sample
    (Samples.ph_input "I2C" (Return (RPair "success" "7.00,abc,7.00"))) [] =
  (Return (Some (value_set 0 (Some (FloatOf "7.00")) measurements_dict)),
   [EQuery atlas_device_slot (PyStr "R")]).
Proof.
  destruct (i2c_parse Samples.plain_decimal Samples.no_sample
              (Samples.ph_input "I2C" (Return (RPair "success" "7.00,abc,7.00")))
              (Samples.stub 2 (Return (RPair "success" "7.00,abc,7.00")))
              "success" "7.00,abc,7.00" []
              eq_refl eq_refl eq_refl) as (t1 & Hc & H).
  cbn in Hc. injection Hc as <-.
  destruct (H eq_refl) as (_ & Hfield & _).
  apply (Hfield eq_refl eq_refl "7.00"); reflexivity.
Defined.

(** C7 (as stated, refuted): the remaining responses do not all end in the
    could-not-determine diagnostic.  A status that is neither "error" nor
    "success" sets no value and logs nothing; a "success" payload with a
    comma and fewer than three fields raises [IndexError]. *)
Lemma i2c_otherwise_counterexample :
  AtlasPh.get_measurement Samples.plain_decimal Samples.no_sample
    (Samples.ph_input "I2C" (Return (RPair "busy" "abc"))) [] =
    (Return (Some (value_set 0 None measurements_dict)),
     [EQuery atlas_device_slot (PyStr "R")])
  /\ AtlasPh.get_measurement Samples.plain_decimal Samples.no_sample
       (Samples.ph_input "I2C" (Return (RPair "success" "*OK,7.00"))) [] =
     (Raise (IndexError "list index out of range"),
      [EQuery atlas_device_slot (PyStr "R")]).
Proof. split; reflexivity. Qed.

(** The failing input of C2, run: the answer ("success", "7.00,abc") has
    a comma and two fields, and [IndexError] leaves [get_measurement]. *)
Lemma short_payload_escapes_witness :
  AtlasPh.get_measurement Samples.plain_decimal Samples.no_sample
    (Samples.ph_input "I2C" (Return (RPair "success" "7.00,abc"))) [] =
  (Raise (IndexError "list index out of range"),
   [EQuery atlas_device_slot (PyStr "R")]).
Proof.
  destruct (short_payload_escapes Samples.plain_decimal Samples.no_sample
              (Samples.ph_input "I2C" (Return (RPair "success" "7.00,abc")))
              (Samples.stub 2 (Return (RPair "success" "7.00,abc")))
              "7.00,abc" []
              eq_refl eq_refl eq_refl) as (t1 & Hc & H).
  cbn in Hc. injection Hc as <-.
  apply H; [reflexivity | reflexivity | cbn; lia].
Defined.

(** The readings of the specification's examples (P5, P6, P7). *)
Example serial_single_reading :
  AtlasPh.get_measurement Samples.plain_decimal Samples.no_sample
    (Samples.ph_input "FTDI" (Return (RLines "success" ["7.00"]))) [] =
  (Return (Some (value_set 0 (Some (FloatOf "7.00")) measurements_dict)),
   [EQuery atlas_device_slot (PyStr "R");
    ELog Debug (LReturnedList ["7.00"]);
    ELog Debug (LFoundFloat (FloatOf "7.00"))]).
Proof. reflexivity. Qed.

Example serial_no_reading :
  AtlasPh.get_measurement Samples.plain_decimal Samples.no_sample
    (Samples.ph_input "FTDI" (Return (RLines "success" ["abc"]))) [] =
  (Return (Some (value_set 0 None measurements_dict)),
   [EQuery atlas_device_slot (PyStr "R");
    ELog Debug (LReturnedList ["abc"]);
    ELog Error (LValueNotFound ["abc"])]).
Proof. reflexivity. Qed.

Example i2c_status_line_reading :
  AtlasPh.get_measurement Samples.plain_decimal Samples.no_sample
    (Samples.ph_input "I2C" (Return (RPair "success" "*OK,pH,7.00"))) [] =
  (Return (Some (value_set 0 (Some (FloatOf "7.00")) measurements_dict)),
   [EQuery atlas_device_slot (PyStr "R")]).
Proof. reflexivity. Qed.

(** A compensated cycle on the command object the constructor builds:
    the temperature literal never reaches the transport, the failure is
    logged, and the read goes on. *)
Example compensated_cycle :
  AtlasPh.get_measurement Samples.plain_decimal Samples.one_sample
    (Samples.compensated_input "I2C" (Return (RPair "success" "7.00,abc,7.00"))) [] =
  (Return (Some (value_set 0 (Some (FloatOf "7.00")) measurements_dict)),
   [ELog Debug LCalibrateTemperature;
    ELog Debug (LLatestTemperature (PyFloat "25.0"));
    ELog Error (LSendException
      (AttributeError "'NoneType' object has no attribute 'query'"));
    ESleep 500;
    ELog Debug (LCalibrationReturned (PyInt 1)
      (MExc (AttributeError "'NoneType' object has no attribute 'query'")));
    EQuery atlas_device_slot (PyStr "R")]).
Proof. reflexivity. Qed.

End AtlasPhFacts.

(* ================================================================== *)
(** * Further properties of calibration.py *)

Module CalibrationMore.
Import Calibration.
Local Open Scope list_scope.

(** ** [send_command] *)

(** Without a transport bound for its interface, a literal is either
    swallowed (unknown interface) or fails on the attribute access. *)
Lemma send_command_unbound self cmd t :
  bound_transport self = None ->
  is_none cmd = false ->
  send_command self cmd t = (Return (PyInt 0, MStr "No message"), t ++ [ESleep 100])
  \/ exists e, send_command self cmd t =
       (Return (PyInt 1, MExc e), t ++ [ELog Error (LSendException e)]).
Proof.
  unfold bound_transport, send_command, try_except, bind.
  intros Hb ->; cbn.
  destruct (interface self =? "FTDI");
    [|destruct (interface self =? "UART");
      [|destruct (interface self =? "I2C"); [|left; reflexivity]]].
  all: match type of Hb with
       | match ?a with _ => _ end = _ => destruct a; try discriminate
       end; right; eexists; reflexivity.
Qed.

(** The effects of one [send_command], by outcome: status 0 leaves at most
    one query and then the settle delay; status 1 leaves no sleep. *)
Lemma send_command_shape self cmd t :
  exists st msg ext,
    send_command self cmd t = (Return (PyInt st, msg), t ++ ext)
    /\ ((st = 0%Z
         /\ exists q, ext = q ++ [ESleep 100]
                      /\ (q = [] \/ q = [EQuery (interface_slot self) cmd]))
        \/ (st = 1%Z /\ ~ In (ESleep 100) ext)).
Proof.
  destruct (is_none cmd) eqn:Hn.
  { destruct cmd; try discriminate.
    exists 1%Z, (MStr "No command given"), []. rewrite app_nil_r.
    split; [reflexivity|right; split; [reflexivity|intros []]]. }
  destruct (bound_transport self) as [d|] eqn:Hb.
  - rewrite (CalibrationFacts.send_command_dispatch self d cmd t Hb Hn).
    destruct (query d t cmd) as [r|e].
    + exists 0%Z, (MResp r), ([EQuery (interface_slot self) cmd] ++ [ESleep 100]).
      split; [reflexivity|left; split; [reflexivity|]].
      eexists; split; [reflexivity|right; reflexivity].
    + exists 1%Z, (MExc e),
        [EQuery (interface_slot self) cmd; ELog Error (LSendException e)].
      split; [reflexivity|right; split; [reflexivity|]].
      intros [H|[H|[]]]; discriminate H.
  - destruct (send_command_unbound self cmd t Hb Hn) as [E|(e & E)]; rewrite E.
    + exists 0%Z, (MStr "No message"), ([] ++ [ESleep 100]).
      split; [reflexivity|left; split; [reflexivity|]].
      eexists; split; [reflexivity|left; reflexivity].
    + exists 1%Z, (MExc e), [ELog Error (LSendException e)].
      split; [reflexivity|right; split; [reflexivity|]].
      intros [H|[]]; discriminate H.
Qed.

(** One send, as [calibrate] sees it: a status 0 or 1 and at most one
    query, none without a bound transport. *)
Lemma send_command_leaf self lit t :
  exists st msg t' qs,
    send_command self lit t = (Return (PyInt st, msg), t')
    /\ (st = 0%Z \/ st = 1%Z)
    /\ queries t' = queries t ++ qs
    /\ (length qs <= 1)%nat
    /\ (bound_transport self = None -> qs = []).
Proof.
  destruct (send_command_shape self lit t) as (st & msg & ext & E & Hst).
  pose proof (CalibrationFacts.send_command_queries self lit t) as Q.
  rewrite E in Q; cbn [snd] in Q.
  exists st, msg, (t ++ ext). eexists. split; [exact E|].
  split; [destruct Hst as [[-> _]|[-> _]]; auto|].
  split; [exact Q|].
  split; destruct (bound_transport self); destruct (is_none lit); cbn;
    auto; discriminate.
Qed.

(** Everything one call of [calibrate] can do. *)
Lemma calibrate_shape self command x custom t :
  exists st msg t' qs,
    calibrate self command x custom t = (Return (st, msg), t')
    /\ (st = PyInt 0 \/ st = PyInt 1
        \/ (st = PyStr "success" /\ msg = MStr calibrated_legacy_msg /\ t' = t
            /\ command = "calibrated" /\ board_version self = 1%Z))
    /\ queries t' = queries t ++ qs
    /\ (length qs <= 2)%nat
    /\ (bound_transport self = None -> qs = [])
    /\ (length qs = 2%nat ->
        command = "clear_calibration" /\ board_version self = 1%Z).
Proof.
  assert (Hsend : forall lit,
    exists st msg t' qs,
      send_command self lit t = (Return (st, msg), t')
      /\ (st = PyInt 0 \/ st = PyInt 1
          \/ (st = PyStr "success" /\ msg = MStr calibrated_legacy_msg /\ t' = t
              /\ command = "calibrated" /\ board_version self = 1%Z))
      /\ queries t' = queries t ++ qs
      /\ (length qs <= 2)%nat
      /\ (bound_transport self = None -> qs = [])
      /\ (length qs = 2%nat ->
          command = "clear_calibration" /\ board_version self = 1%Z)).
  { intros lit.
    destruct (send_command_leaf self lit t) as (st & msg & t' & qs & E & Hst & Q & Hl & Hb).
    exists (PyInt st), msg, t', qs. repeat split; auto; try lia.
    destruct Hst as [-> | ->]; auto. }
  assert (Hkeep : forall r : pyval * message, fst r = PyInt 1 ->
    exists st msg t' qs,
      ret r t = (Return (st, msg), t')
      /\ (st = PyInt 0 \/ st = PyInt 1
          \/ (st = PyStr "success" /\ msg = MStr calibrated_legacy_msg /\ t' = t
              /\ command = "calibrated" /\ board_version self = 1%Z))
      /\ queries t' = queries t ++ qs
      /\ (length qs <= 2)%nat
      /\ (bound_transport self = None -> qs = [])
      /\ (length qs = 2%nat ->
          command = "clear_calibration" /\ board_version self = 1%Z)).
  { intros [st msg] Hr; cbn in Hr; subst st.
    exists (PyInt 1), msg, t, []. rewrite app_nil_r.
    repeat split; auto; cbn; try lia; discriminate. }
  unfold calibrate.
  repeat match goal with
         | |- context [if ?b then _ else _] =>
             lazymatch b with
             | (_ =? EmptyString)%string => fail
             | _ => destruct b eqn:?
             end
         end;
    try apply Hsend; try (apply Hkeep; reflexivity).
  - (* legacy clear_calibration: two sends *)
    unfold bind.
    destruct (send_command_leaf self (PyStr "X") t)
      as (s1 & m1 & t1 & q1 & E1 & Hs1 & Q1 & L1 & B1).
    destruct (send_command_leaf self (PyStr "L0") t1)
      as (s2 & m2 & t2 & q2 & E2 & Hs2 & Q2 & L2 & B2).
    rewrite E1, E2.
    exists (PyInt s1), m1, t2, (q1 ++ q2).
    split; [reflexivity|].
    split; [destruct Hs1 as [-> | ->]; auto|].
    split; [now rewrite Q2, Q1, app_assoc|].
    split; [rewrite length_app; lia|].
    split; [intros Hb; now rewrite (B1 Hb), (B2 Hb)|].
    intros _. split; [now apply String.eqb_eq|now apply Z.eqb_eq].
  - (* legacy calibrated: nothing is sent *)
    exists (PyStr "success"), (MStr calibrated_legacy_msg), t, [].
    rewrite app_nil_r. split; [reflexivity|].
    split; [right; right; repeat split;
            [now apply String.eqb_eq|now apply Z.eqb_eq]|].
    repeat split; auto; cbn; try lia; discriminate.
Qed.

(** ** Properties *)

(** X1: [send_command] never raises.  Its status is 0 or 1; with status 0
    the 100 ms settle delay is the last effect and is slept once, with
    status 1 it is not slept at all. *)
Theorem send_command_settles self cmd t :
  exists st msg ext,
    send_command self cmd t = (Return (PyInt st, msg), t ++ ext)
    /\ (st = 0%Z \/ st = 1%Z)
    /\ (st = 0%Z -> exists q, ext = q ++ [ESleep 100] /\ ~ In (ESleep 100) q)
    /\ (st = 1%Z -> ~ In (ESleep 100) ext).
Proof.
  destruct (send_command_shape self cmd t) as (st & msg & ext & E & Hst).
  exists st, msg, ext. split; [exact E|].
  destruct Hst as [(-> & q & -> & Hq)|(-> & Hno)].
  - split; [now left|]. split; [|discriminate].
    intros _. exists q. split; [reflexivity|].
    destruct Hq as [-> | ->]; [intros []|intros [H|[]]; discriminate H].
  - split; [now right|]. split; [discriminate|]. intros _. exact Hno.
Qed.

(** X2: when the attribute read for the interface holds a transport, a
    literal other than [None] is queried on it exactly once; its answer
    comes back with status 0 after the settle delay, and an exception it
    raises is logged and comes back with status 1, without the delay. *)
Theorem send_command_bound_transport self d cmd t :
  bound_transport self = Some d ->
  cmd <> PyNone ->
  (forall r, query d t cmd = Return r ->
     send_command self cmd t =
       (Return (PyInt 0, MResp r), t ++ [EQuery (interface_slot self) cmd; ESleep 100]))
  /\ (forall e, query d t cmd = Raise e ->
        send_command self cmd t =
          (Return (PyInt 1, MExc e),
           t ++ [EQuery (interface_slot self) cmd; ELog Error (LSendException e)])).
Proof.
  intros Hb Hc.
  assert (Hn : is_none cmd = false) by (destruct cmd; [contradiction|reflexivity..]).
  rewrite (CalibrationFacts.send_command_dispatch self d cmd t Hb Hn).
  split; intros r Hq; now rewrite Hq.
Qed.

(** X2 on a legacy object whose transport fails on [L0] and answers [X]. *)
Lemma send_command_bound_transport_witness :
  send_command Samples.legacy_failing_l0 (PyStr "X") [] =
    (Return (PyInt 0, MResp (RPair "success" "OK")),
     [EQuery ph_sensor_i2c_slot (PyStr "X"); ESleep 100])
  /\ send_command Samples.legacy_failing_l0 (PyStr "L0") [] =
    (Return (PyInt 1, MExc (Exn "IOError" "write failed")),
     [EQuery ph_sensor_i2c_slot (PyStr "L0");
      ELog Error (LSendException (Exn "IOError" "write failed"))]).
Proof.
  split.
  - apply (proj1 (send_command_bound_transport Samples.legacy_failing_l0
             (Samples.failing_on 1 "L0") (PyStr "X") [] eq_refl
             ltac:(discriminate))).
    reflexivity.
  - apply (proj2 (send_command_bound_transport Samples.legacy_failing_l0
             (Samples.failing_on 1 "L0") (PyStr "L0") [] eq_refl
             ltac:(discriminate))).
    reflexivity.
Defined.

(** X3: [calibrate] never raises, whatever the command, operand, custom
    literal and transport.  Its status is 0, 1 or the string ['success'],
    the last only for [calibrated] on a board of generation 1, where
    nothing happens at all. *)
Theorem calibrate_status self command x custom t :
  exists st msg t',
    calibrate self command x custom t = (Return (st, msg), t')
    /\ (st = PyInt 0 \/ st = PyInt 1
        \/ (st = PyStr "success" /\ t' = t
            /\ command = "calibrated" /\ board_version self = 1%Z)).
Proof.
  destruct (calibrate_shape self command x custom t)
    as (st & msg & t' & qs & E & Hst & _).
  exists st, msg, t'. split; [exact E|].
  destruct Hst as [H|[H|(H1 & _ & H2 & H3 & H4)]]; auto.
  right; right; auto.
Qed.

(** X4: on a board whose generation is neither 1 nor 2 (not only the
    unknown generation 0), every named command is a no-op: nothing is
    sent and the result is status 1 with the init diagnostic, if one is
    recorded, and "Default message" otherwise. *)
Theorem calibrate_other_generation self command x custom t :
  board_version self <> 1%Z ->
  board_version self <> 2%Z ->
  resolves_named command x = true ->
  calibrate self command x custom t = (Return (default_result self), t).
Proof.
  intros H1 H2 Hr. apply Z.eqb_neq in H1, H2.
  unfold resolves_named in Hr. apply andb_true_iff in Hr as [Hn Hx].
  CalibrationFacts.each_named Hn; unfold calibrate; rewrite ?H1, ?H2;
    cbn in *; try reflexivity.
  destruct x; cbn in *; try discriminate; reflexivity.
Qed.

(** X4 on a board reporting generation 3. *)
Lemma calibrate_other_generation_witness :
  calibrate (Samples.with_i2c_transport 3 Samples.ok_reply)
    "clear_calibration" PyNone (PyStr "Status") [] =
  (Return (PyInt 1, MStr "Default message"), []).
Proof.
  apply (calibrate_other_generation (Samples.with_i2c_transport 3 Samples.ok_reply)
           "clear_calibration" PyNone (PyStr "Status") []);
    [discriminate | discriminate | reflexivity].
Defined.

(** X5: one call of [calibrate] queries a transport at most twice, and
    twice only for [clear_calibration] on a board of generation 1. *)
Theorem calibrate_at_most_two_queries self command x custom t :
  exists qs,
    queries (snd (calibrate self command x custom t)) = queries t ++ qs
    /\ (length qs <= 2)%nat
    /\ (length qs = 2%nat ->
        command = "clear_calibration" /\ board_version self = 1%Z).
Proof.
  destruct (calibrate_shape self command x custom t)
    as (st & msg & t' & qs & E & _ & Q & L & _ & H2).
  exists qs. rewrite E. auto.
Qed.

(** X6: on an object built by the constructor, no call of [calibrate]
    queries a transport, whatever the command, operand and custom
    literal: the temperature literal of a compensated cycle never reaches
    the device. *)
Theorem calibrate_after_init_never_queries
    connect dev sensor t0 self t1 command x custom t :
  __init__ connect dev sensor t0 = (Return self, t1) ->
  queries (snd (calibrate self command x custom t)) = queries t.
Proof.
  intros Hinit.
  pose proof (CalibrationFacts.init_leaves_transport_unbound _ _ _ _ _ _ Hinit) as Hb.
  destruct (calibrate_shape self command x custom t)
    as (st & msg & t' & qs & E & _ & Q & _ & Hnone & _).
  rewrite E; cbn [snd]. rewrite Q, (Hnone Hb). apply app_nil_r.
Qed.

(** X6 on the object built for I2C on a current board. *)
Lemma calibrate_after_init_never_queries_witness :
  queries (snd (calibrate (Samples.constructed "I2C" 2)
                  "temperature" (PyFloat "25.0") PyNone [])) = [].
Proof.
  apply (calibrate_after_init_never_queries Samples.no_driver (Samples.input_on "I2C")
           (Some (Samples.stub 2 Samples.ok_reply)) []
           (Samples.constructed "I2C" 2)
           [ELog Debug (LInitSuccess (PyStr "pH") 2 (PyStr "1.0"))]
           "temperature" (PyFloat "25.0") PyNone []).
  reflexivity.
Defined.


(** X8: without a sensor, the constructor opens the driver of the
    interface and goes on as if it had been given that driver object; a
    failure to open it leaves the constructor, and an interface other than
    FTDI, UART and I2C makes it fail with [AttributeError] before anything
    is probed or logged. *)
Theorem init_without_sensor connect dev t :
  __init__ connect dev None t =
  if (dev_interface dev =? "FTDI") || (dev_interface dev =? "UART")
     || (dev_interface dev =? "I2C")
  then match connect dev with
       | Return d => __init__ connect dev (Some d) t
       | Raise e => (Raise e, t)
       end
  else (Raise (AttributeError
          "'AtlasScientificCommand' object has no attribute 'atlas_device'"), t).
Proof.
  unfold __init__, bind.
  destruct ((dev_interface dev =? "FTDI") || (dev_interface dev =? "UART")
            || (dev_interface dev =? "I2C")); [|reflexivity].
  destruct (connect dev); reflexivity.
Qed.

(** X25: a call whose command is none of the named ones is decided by the
    custom literal alone, on every board generation and whatever the
    operand: a literal that is true in a condition is handed to
    [send_command] as it is, and with none (or with an empty or zero one)
    nothing is sent and the default result comes back. *)
Theorem custom_literal_verbatim self command x custom t :
  ~ In command named_commands ->
  calibrate self command x custom t =
  if truthy custom then send_command self custom t
  else (Return (default_result self), t).
Proof.
  intros Hn.
  assert (Hs : str_in command named_commands = false)
    by now apply AtlasPhFacts.str_in_not_In.
  destruct (truthy custom) eqn:Hc;
    [|now apply CalibrationFacts.calibrate_nothing_to_send].
  unfold str_in, named_commands in Hs; cbn [existsb] in Hs.
  repeat (apply orb_false_iff in Hs as [? Hs]).
  unfold calibrate.
  repeat match goal with
         | E : (command =? _) = false |- _ => rewrite E; clear E
         end.
  cbn. now rewrite Hc.
Qed.

(** X25 on a board of generation 0 with a bound transport. *)
Lemma custom_literal_verbatim_witness :
  calibrate (Samples.with_i2c_transport 0 Samples.ok_reply)
    "status" (PyInt 7) (PyStr "Status") [] =
  send_command (Samples.with_i2c_transport 0 Samples.ok_reply) (PyStr "Status") [].
Proof.
  apply (custom_literal_verbatim (Samples.with_i2c_transport 0 Samples.ok_reply)
           "status" (PyInt 7) (PyStr "Status") []).
  cbn. intros H. repeat (destruct H as [H|H]; [discriminate H|]). exact H.
Defined.

End CalibrationMore.

(* ================================================================== *)
(** * Further properties of atlas_ph.py *)

Module AtlasPhMore.
Import AtlasPh.
Local Open Scope list_scope.

(** ** The option constraint *)


Section Cycle.

Variable float_parses : string -> bool.
Variable get_last_measurement : pyval -> pyval -> Z -> option (pyval * pyval).

Abbreviation compensate := (AtlasPh.compensate get_last_measurement).
Abbreviation read_serial := (AtlasPh.read_serial float_parses).
Abbreviation read_i2c := (AtlasPh.read_i2c float_parses).
Abbreviation get_measurement := (AtlasPh.get_measurement float_parses get_last_measurement).

(** ** Before the raw read *)

(** X10: when the device reports that it was never set up, the cycle logs
    "Sensor not set up" and returns [None], not a dictionary: no
    compensation is attempted and no transport is queried, even when
    compensation is configured. *)
Theorem not_set_up self dev t0 :
  atlas_device self = Some dev ->
  setup dev = false ->
  get_measurement self t0 = (Return None, t0 ++ [ELog Error LSensorNotSetUp]).
Proof.
  intros Hd Hs. unfold AtlasPh.get_measurement, bind. rewrite Hd; cbn.
  now rewrite Hs.
Qed.

(** X11: when no device object is bound ([initialize_sensor] took no
    branch or failed), the cycle raises [AttributeError] before doing
    anything: the exception is not absorbed. *)
Theorem device_missing self t0 :
  atlas_device self = None ->
  get_measurement self t0 =
    (Raise (AttributeError "'NoneType' object has no attribute 'setup'"), t0).
Proof.
  intros Hd. unfold AtlasPh.get_measurement, bind. now rewrite Hd.
Qed.

(** ** Temperature compensation *)

(** The three ways the compensation step goes. *)
Lemma compensate_cases self t :
  match (if truthy (temperature_comp_meas_measurement_id self)
         then atlas_command self else None) with
  | None => compensate self t = (Return tt, t)
  | Some cmd =>
      match get_last_measurement (temperature_comp_meas_device_id self)
              (temperature_comp_meas_measurement_id self) (max_age self) with
      | None =>
          compensate self t =
            (Return tt, t ++ [ELog Debug LCalibrateTemperature;
                              ELog Error (LCompensationNotFound (max_age self))])
      | Some (_, temp) =>
          exists st msg tc,
            Calibration.calibrate cmd "temperature" temp PyNone
              (t ++ [ELog Debug LCalibrateTemperature;
                     ELog Debug (LLatestTemperature temp)]) = (Return (st, msg), tc)
            /\ compensate self t =
                 (Return tt, tc ++ [ESleep 500;
                                    ELog Debug (LCalibrationReturned st msg)])
      end
  end.
Proof.
  unfold AtlasPh.compensate.
  destruct (if truthy _ then _ else _) as [cmd|]; [|reflexivity].
  unfold bind, log, sleep, emit.
  destruct (get_last_measurement _ _ _) as [[tm temp]|].
  - rewrite <- app_assoc; cbn [app].
    destruct (AtlasPhFacts.calibrate_returns cmd "temperature" temp PyNone
                (t ++ [ELog Debug LCalibrateTemperature;
                       ELog Debug (LLatestTemperature temp)]))
      as ([st msg] & tc & E).
    exists st, msg, tc. split; [exact E|]. rewrite E.
    now rewrite <- app_assoc.
  - now rewrite <- app_assoc.
Qed.

(** X12: with a measurement id and a command object configured, and a
    sample in the store, the cycle calls [calibrate('temperature')] with
    the value of the sample as operand and no custom literal, sleeps
    500 ms, logs what the call returned and goes on, whatever the call
    returned. *)
Theorem compensation_applied self cmd tm temp t :
  truthy (temperature_comp_meas_measurement_id self) = true ->
  atlas_command self = Some cmd ->
  get_last_measurement (temperature_comp_meas_device_id self)
    (temperature_comp_meas_measurement_id self) (max_age self) = Some (tm, temp) ->
  exists st msg tc,
    Calibration.calibrate cmd "temperature" temp PyNone
      (t ++ [ELog Debug LCalibrateTemperature;
             ELog Debug (LLatestTemperature temp)]) = (Return (st, msg), tc)
    /\ compensate self t =
         (Return tt, tc ++ [ESleep 500; ELog Debug (LCalibrationReturned st msg)]).
Proof.
  intros Hid Hcmd Hs. pose proof (compensate_cases self t) as H.
  rewrite Hid, Hcmd, Hs in H. exact H.
Qed.

(** X13: compensation is skipped without any effect unless both a
    measurement id and a command object are present; and when they are
    but the store has no sample within [max_age], the cycle logs the
    missing sample as an error, sends nothing and goes on. *)
Theorem compensation_skipped self t :
  (truthy (temperature_comp_meas_measurement_id self) = false
   \/ atlas_command self = None ->
   compensate self t = (Return tt, t))
  /\ (truthy (temperature_comp_meas_measurement_id self) = true ->
      atlas_command self <> None ->
      get_last_measurement (temperature_comp_meas_device_id self)
        (temperature_comp_meas_measurement_id self) (max_age self) = None ->
      compensate self t =
        (Return tt, t ++ [ELog Debug LCalibrateTemperature;
                          ELog Error (LCompensationNotFound (max_age self))])).
Proof.
  pose proof (compensate_cases self t) as H. split.
  - intros [Hid|Hcmd].
    + now rewrite Hid in H.
    + rewrite Hcmd in H. now destruct (truthy _).
  - intros Hid Hcmd Hs. rewrite Hid, Hs in H.
    destruct (atlas_command self); [exact H|contradiction].
Qed.

(** Compensation on a command object without bound transport queries
    nothing. *)
Lemma compensate_queries self t t1 :
  (forall cmd, atlas_command self = Some cmd -> bound_transport cmd = None) ->
  compensate self t = (Return tt, t1) ->
  queries t1 = queries t.
Proof.
  intros Hb Hc. pose proof (compensate_cases self t) as H.
  destruct (truthy (temperature_comp_meas_measurement_id self));
    [|rewrite H in Hc; now injection Hc as <-].
  destruct (atlas_command self) as [cmd|] eqn:Hcmd;
    [|rewrite H in Hc; now injection Hc as <-].
  specialize (Hb cmd eq_refl).
  destruct (get_last_measurement _ _ _) as [[tm temp]|].
  - destruct H as (st & msg & tc & E & H). rewrite H in Hc. injection Hc as <-.
    destruct (CalibrationMore.calibrate_shape cmd "temperature" temp PyNone
                (t ++ [ELog Debug LCalibrateTemperature;
                       ELog Debug (LLatestTemperature temp)]))
      as (st' & msg' & tc' & qs & E' & _ & Q & _ & Hnone & _).
    rewrite E in E'. injection E' as _ _ <-.
    rewrite CalibrationFacts.queries_app, Q, (Hnone Hb),
      CalibrationFacts.queries_app. cbn. now rewrite !app_nil_r.
  - rewrite H in Hc. injection Hc as <-.
    rewrite CalibrationFacts.queries_app. cbn. now rewrite app_nil_r.
Qed.

(** ** The raw read *)

(** Whatever the transport answers, the serial reader queries it once. *)
Lemma read_serial_queries dev t :
  queries (snd (read_serial dev t)) = queries t ++ [PyStr "R"].
Proof.
  destruct (query dev t (PyStr "R")) as [[status lines|status payload]|e] eqn:Hq.
  - rewrite (AtlasPhFacts.read_serial_cases float_parses dev status lines t Hq).
    cbn zeta.
    assert (Hl : queries (t ++ [EQuery atlas_device_slot (PyStr "R")]
                            ++ returned_list_log lines) = queries t ++ [PyStr "R"]).
    { rewrite CalibrationFacts.queries_app. now destruct lines. }
    destruct (str_in "check probe" lines);
      [|destruct (find float_parses lines)]; cbn [snd];
      rewrite CalibrationFacts.queries_app, Hl; cbn; now rewrite app_nil_r.
  - unfold AtlasPh.read_serial, bind, call_query. rewrite Hq. cbn.
    now rewrite CalibrationFacts.queries_app.
  - unfold AtlasPh.read_serial, bind, call_query. rewrite Hq. cbn.
    now rewrite CalibrationFacts.queries_app.
Qed.

(** And so does the I2C reader. *)
Lemma read_i2c_queries dev t :
  queries (snd (read_i2c dev t)) = queries t ++ [PyStr "R"].
Proof.
  assert (Hl : queries (t ++ [EQuery atlas_device_slot (PyStr "R")])
               = queries t ++ [PyStr "R"])
    by now rewrite CalibrationFacts.queries_app.
  assert (Hlog : forall r, queries ((t ++ [EQuery atlas_device_slot (PyStr "R")])
                                      ++ [ELog Error r]) = queries t ++ [PyStr "R"]).
  { intros r. rewrite CalibrationFacts.queries_app, Hl. cbn. now rewrite app_nil_r. }
  destruct (query dev t (PyStr "R")) as [[status lines|status payload]|e] eqn:Hq.
  - unfold AtlasPh.read_i2c, bind, call_query. rewrite Hq. exact Hl.
  - rewrite (AtlasPhFacts.read_i2c_cases float_parses dev status payload t Hq).
    cbn zeta.
    repeat match goal with
           | |- context [if ?b then _ else _] => destruct b
           | |- context [match ?o with Some _ => _ | None => _ end] => destruct o
           end; cbn [snd]; auto.
  - unfold AtlasPh.read_i2c, bind, call_query. rewrite Hq. exact Hl.
Qed.

(** X14: a failure of the raw read is not absorbed.  On FTDI, UART or I2C,
    with the device set up, an exception raised by [query('R')] leaves
    [get_measurement] as it is: no value is stored and nothing is
    logged. *)
Theorem raw_read_failure_propagates self dev t0 :
  interface self = "FTDI" \/ interface self = "UART" \/ interface self = "I2C" ->
  atlas_device self = Some dev ->
  setup dev = true ->
  exists t1,
    compensate self t0 = (Return tt, t1)
    /\ forall e, query dev t1 (PyStr "R") = Raise e ->
       get_measurement self t0 =
         (Raise e, t1 ++ [EQuery atlas_device_slot (PyStr "R")]).
Proof.
  intros Hi Hd Hs.
  destruct (AtlasPhFacts.compensate_returns get_last_measurement self t0) as (t1 & Hc).
  exists t1. split; [exact Hc|]. intros e Hq.
  rewrite (AtlasPhFacts.get_measurement_steps float_parses get_last_measurement
             self dev t0 t1 Hd Hs Hc).
  destruct Hi as [-> | [-> | ->]]; cbn [String.eqb Ascii.eqb Bool.eqb orb];
    unfold AtlasPh.read_serial, AtlasPh.read_i2c, bind, call_query;
    now rewrite Hq.
Qed.

(** X15: with an interface other than FTDI, UART and I2C and a device that
    is set up, the cycle reads nothing: after compensation it returns the
    dictionary with no value at index 0, without a query and without a
    diagnostic. *)
Theorem unknown_interface_reads_nothing self dev t0 :
  interface self <> "FTDI" ->
  interface self <> "UART" ->
  interface self <> "I2C" ->
  atlas_device self = Some dev ->
  setup dev = true ->
  exists t1,
    compensate self t0 = (Return tt, t1)
    /\ get_measurement self t0 =
         (Return (Some (value_set 0 None measurements_dict)), t1).
Proof.
  intros Hf Hu Hi Hd Hs. apply String.eqb_neq in Hf, Hu, Hi.
  destruct (AtlasPhFacts.compensate_returns get_last_measurement self t0) as (t1 & Hc).
  exists t1. split; [exact Hc|].
  rewrite (AtlasPhFacts.get_measurement_steps float_parses get_last_measurement
             self dev t0 t1 Hd Hs Hc).
  now rewrite Hf, Hu, Hi.
Qed.

(** X16: one cycle is one raw read.  On FTDI, UART or I2C, with the device
    set up and a command object (if any) as the constructor builds it,
    the cycle queries a transport exactly once, with the literal [R],
    whatever the answer is and whether the cycle returns or raises. *)
Theorem one_raw_read_per_cycle self dev t0 :
  interface self = "FTDI" \/ interface self = "UART" \/ interface self = "I2C" ->
  atlas_device self = Some dev ->
  setup dev = true ->
  (forall cmd, atlas_command self = Some cmd -> bound_transport cmd = None) ->
  queries (snd (get_measurement self t0)) = queries t0 ++ [PyStr "R"].
Proof.
  intros Hi Hd Hs Hb.
  destruct (AtlasPhFacts.compensate_returns get_last_measurement self t0) as (t1 & Hc).
  rewrite (AtlasPhFacts.get_measurement_steps float_parses get_last_measurement
             self dev t0 t1 Hd Hs Hc).
  rewrite <- (compensate_queries self t0 t1 Hb Hc).
  assert (Hfin : forall r, queries (snd (finish r)) = queries (snd r))
    by (intros [[ph|e] t]; reflexivity).
  rewrite Hfin.
  destruct Hi as [-> | [-> | ->]]; cbn [String.eqb Ascii.eqb Bool.eqb orb].
  - apply read_serial_queries.
  - apply read_serial_queries.
  - apply read_i2c_queries.
Qed.

(** A reading handed on by a reader is a text that [float] accepts. *)
Lemma reader_reading_parses self dev t text t' :
  (if (interface self =? "FTDI") || (interface self =? "UART") then read_serial dev
   else if interface self =? "I2C" then read_i2c dev
   else ret None) t = (Return (Some (FloatOf text)), t') ->
  float_parses text = true.
Proof.
  destruct ((interface self =? "FTDI") || (interface self =? "UART")).
  - destruct (query dev t (PyStr "R")) as [[status lines|status payload]|e] eqn:Hq.
    + rewrite (AtlasPhFacts.read_serial_cases float_parses dev status lines t Hq).
      cbn zeta. destruct (str_in "check probe" lines); [discriminate|].
      destruct (find float_parses lines) as [found|] eqn:Hf; [|discriminate].
      intros H. injection H as <- _.
      exact (AtlasPhFacts.find_parses float_parses lines found Hf).
    + unfold AtlasPh.read_serial, bind, call_query. rewrite Hq. discriminate.
    + unfold AtlasPh.read_serial, bind, call_query. rewrite Hq. discriminate.
  - destruct (interface self =? "I2C"); [|discriminate].
    destruct (query dev t (PyStr "R")) as [[status lines|status payload]|e] eqn:Hq.
    + unfold AtlasPh.read_i2c, bind, call_query. rewrite Hq. discriminate.
    + rewrite (AtlasPhFacts.read_i2c_cases float_parses dev status payload t Hq).
      cbn zeta.
      destruct (status =? "error"); [discriminate|].
      destruct (status =? "success"); [|discriminate].
      destruct (float_parses payload) eqn:Hp;
        destruct (contains_char comma payload);
        try destruct (nth_error (split_on comma payload) 2) as [field|];
        try destruct (float_parses field) eqn:Hfield;
        intros H; try discriminate H; injection H as <- _; assumption.
    + unfold AtlasPh.read_i2c, bind, call_query. rewrite Hq. discriminate.
Qed.

(** X17: whenever a cycle returns a dictionary, it has exactly the entry
    of index 0 (ion concentration, pH), and a value stored there comes
    from a text that [float] accepts: the cycle never stores anything it
    could not convert, and [float] never fails inside a cycle. *)
Theorem returned_reading_parses self t0 d t :
  get_measurement self t0 = (Return (Some d), t) ->
  exists v,
    d = [(0%Z, {| ch_measurement := "ion_concentration"; ch_unit := "pH";
                  ch_value := v |})]
    /\ forall text, v = Some (FloatOf text) -> float_parses text = true.
Proof.
  destruct (atlas_device self) as [dev|] eqn:Hd;
    [|unfold AtlasPh.get_measurement, bind; rewrite Hd; discriminate].
  destruct (setup dev) eqn:Hs;
    [|unfold AtlasPh.get_measurement, bind; rewrite Hd; cbn; rewrite Hs; discriminate].
  destruct (AtlasPhFacts.compensate_returns get_last_measurement self t0) as (t1 & Hc).
  rewrite (AtlasPhFacts.get_measurement_steps float_parses get_last_measurement
             self dev t0 t1 Hd Hs Hc).
  destruct ((if (interface self =? "FTDI") || (interface self =? "UART")
             then read_serial dev
             else if interface self =? "I2C" then read_i2c dev else ret None) t1)
    as [[ph|e] t2] eqn:Hr; cbn; [|discriminate].
  intros H. injection H as <- <-. exists ph. split; [reflexivity|].
  intros text ->. exact (reader_reading_parses self dev t1 text t2 Hr).
Qed.

(** A text contains the character exactly when it counts at least one. *)
Lemma contains_char_count c s :
  contains_char c s = true <-> (1 <= count_char c s)%nat.
Proof.
  induction s as [|a rest IH]; cbn; [split; [discriminate|lia]|].
  destruct (Ascii.eqb a c); cbn; [split; [lia|reflexivity]|exact IH].
Qed.

(** X18: on I2C, with the device set up and the raw read answering
    "success", the cycle raises exactly when the payload contains exactly
    one comma; with no comma or with two or more it returns a
    dictionary. *)
Theorem raises_iff_one_comma self dev payload t0 :
  interface self = "I2C" ->
  atlas_device self = Some dev ->
  setup dev = true ->
  exists t1,
    compensate self t0 = (Return tt, t1)
    /\ (query dev t1 (PyStr "R") = Return (RPair "success" payload) ->
        ((exists e t, get_measurement self t0 = (Raise e, t))
         <-> count_char comma payload = 1%nat)
        /\ ((exists d t, get_measurement self t0 = (Return (Some d), t))
            <-> count_char comma payload <> 1%nat)).
Proof.
  intros Hi Hd Hs.
  destruct (AtlasPhFacts.compensate_returns get_last_measurement self t0) as (t1 & Hc).
  exists t1. split; [exact Hc|]. intros Hq.
  rewrite (AtlasPhFacts.get_measurement_steps float_parses get_last_measurement
             self dev t0 t1 Hd Hs Hc), Hi.
  cbn [String.eqb Ascii.eqb Bool.eqb orb].
  rewrite (AtlasPhFacts.read_i2c_cases float_parses dev "success" payload t1 Hq).
  cbn zeta. cbn [String.eqb Ascii.eqb Bool.eqb].
  pose proof (contains_char_count comma payload) as Hcount.
  pose proof (AtlasPhFacts.split_on_length comma payload) as Hlen.
  assert (Hret : forall (ph : option pyfloat) (t : trace) (n : nat), n <> 1%nat ->
    ((exists e t', finish (Return ph, t) = (Raise e, t')) <-> n = 1%nat)
    /\ ((exists d t', finish (Return ph, t) = (Return (Some d), t')) <-> n <> 1%nat)).
  { intros ph t n Hn. cbn. split; split.
    - intros (e & t' & H); discriminate H.
    - intros ->; contradiction.
    - intros _; exact Hn.
    - intros _. do 2 eexists; reflexivity. }
  destruct (contains_char comma payload).
  - assert (H1 : (1 <= count_char comma payload)%nat) by now apply Hcount.
    destruct (nth_error (split_on comma payload) 2) as [field|] eqn:Hn.
    + assert ((2 < length (split_on comma payload))%nat)
        by (apply nth_error_Some; congruence).
      destruct (float_parses field); [|destruct (float_parses payload)];
        apply Hret; lia.
    + apply nth_error_None in Hn.
      assert (count_char comma payload = 1%nat) by lia.
      cbn. split; split; try lia.
      * intros _. do 2 eexists; reflexivity.
      * intros (d & t & H'); discriminate H'.
  - assert (count_char comma payload = 0%nat).
    { destruct (count_char comma payload); [reflexivity|].
      assert (false = true) by (apply Hcount; lia). discriminate. }
    destruct (float_parses payload); apply Hret; lia.
Qed.

End Cycle.

(** X10 with compensation configured on the input. *)
Lemma not_set_up_witness :
  AtlasPh.get_measurement Samples.plain_decimal Samples.one_sample
    (MoreSamples.input_with "I2C" (Some MoreSamples.not_set_up_stub)) [] =
  (Return None, [ELog Error LSensorNotSetUp]).
Proof.
  apply (not_set_up Samples.plain_decimal Samples.one_sample
           (MoreSamples.input_with "I2C" (Some MoreSamples.not_set_up_stub))
           MoreSamples.not_set_up_stub []); reflexivity.
Defined.

(** X11 on an input whose interface is "SPI". *)
Lemma device_missing_witness :
  AtlasPh.get_measurement Samples.plain_decimal Samples.one_sample
    (MoreSamples.input_with "SPI" None) [] =
  (Raise (AttributeError "'NoneType' object has no attribute 'setup'"), []).
Proof.
  apply (device_missing Samples.plain_decimal Samples.one_sample
           (MoreSamples.input_with "SPI" None) []); reflexivity.
Defined.

(** X12 on the input of a compensated cycle: the send fails inside
    [calibrate], and the step completes all the same. *)
Lemma compensation_applied_witness :
  AtlasPh.compensate Samples.one_sample
    (Samples.compensated_input "I2C" (Return (RPair "success" "7.00"))) [] =
  (Return tt,
   [ELog Debug LCalibrateTemperature;
    ELog Debug (LLatestTemperature (PyFloat "25.0"));
    ELog Error (LSendException
      (AttributeError "'NoneType' object has no attribute 'query'"));
    ESleep 500;
    ELog Debug (LCalibrationReturned (PyInt 1)
      (MExc (AttributeError "'NoneType' object has no attribute 'query'")))]).
Proof.
  destruct (compensation_applied Samples.one_sample
              (Samples.compensated_input "I2C" (Return (RPair "success" "7.00")))
              (Samples.constructed "I2C" 2) (PyFloat "1560000000.0") (PyFloat "25.0") []
              eq_refl eq_refl eq_refl) as (st & msg & tc & E & H).
  cbn in E. injection E as <- <- <-. exact H.
Defined.

(** X13 without a command object, and with one but no sample. *)
Lemma compensation_skipped_witness :
  AtlasPh.compensate Samples.one_sample
    (Samples.ph_input "I2C" (Return (RPair "success" "7.00"))) [] = (Return tt, [])
  /\ AtlasPh.compensate Samples.no_sample
       (Samples.compensated_input "I2C" (Return (RPair "success" "7.00"))) [] =
     (Return tt, [ELog Debug LCalibrateTemperature;
                  ELog Error (LCompensationNotFound 120)]).
Proof.
  split.
  - apply (proj1 (compensation_skipped Samples.one_sample
             (Samples.ph_input "I2C" (Return (RPair "success" "7.00"))) [])).
    right; reflexivity.
  - apply (proj2 (compensation_skipped Samples.no_sample
             (Samples.compensated_input "I2C" (Return (RPair "success" "7.00"))) []));
      [reflexivity | discriminate | reflexivity].
Defined.

(** X14 on UART: the driver's exception leaves the cycle. *)
Lemma raw_read_failure_propagates_witness :
  AtlasPh.get_measurement Samples.plain_decimal Samples.no_sample
    (Samples.ph_input "UART" (Raise MoreSamples.write_failed)) [] =
  (Raise MoreSamples.write_failed, [EQuery atlas_device_slot (PyStr "R")]).
Proof.
  destruct (raw_read_failure_propagates Samples.plain_decimal Samples.no_sample
              (Samples.ph_input "UART" (Raise MoreSamples.write_failed))
              (Samples.stub 2 (Raise MoreSamples.write_failed)) []
              (or_intror (or_introl eq_refl)) eq_refl eq_refl) as (t1 & Hc & H).
  cbn in Hc. injection Hc as <-.
  apply H. reflexivity.
Defined.

(** X15 on an input whose interface is "SPI". *)
Lemma unknown_interface_reads_nothing_witness :
  AtlasPh.get_measurement Samples.plain_decimal Samples.no_sample
    (Samples.ph_input "SPI" (Return (RPair "success" "7.00"))) [] =
  (Return (Some (value_set 0 None measurements_dict)), []).
Proof.
  destruct (unknown_interface_reads_nothing Samples.plain_decimal Samples.no_sample
              (Samples.ph_input "SPI" (Return (RPair "success" "7.00")))
              (Samples.stub 2 (Return (RPair "success" "7.00"))) []
              ltac:(discriminate) ltac:(discriminate) ltac:(discriminate)
              eq_refl eq_refl) as (t1 & Hc & H).
  cbn in Hc. injection Hc as <-. exact H.
Defined.

(** X16 on a compensated cycle that ends in [IndexError]. *)
Lemma one_raw_read_per_cycle_witness :
  queries (snd (AtlasPh.get_measurement Samples.plain_decimal Samples.one_sample
                  (Samples.compensated_input "I2C" (Return (RPair "success" "7.00,abc")))
                  [])) = [PyStr "R"].
Proof.
  apply (one_raw_read_per_cycle Samples.plain_decimal Samples.one_sample
           (Samples.compensated_input "I2C" (Return (RPair "success" "7.00,abc")))
           (Samples.stub 2 (Return (RPair "success" "7.00,abc"))) []
           (or_intror (or_intror eq_refl)) eq_refl eq_refl).
  intros cmd H. injection H as <-. reflexivity.
Defined.

(** X17 on the cycle of the end-to-end example. *)
Lemma returned_reading_parses_witness :
  exists v,
    value_set 0 (Some (FloatOf "7.00")) measurements_dict =
      [(0%Z, {| ch_measurement := "ion_concentration"; ch_unit := "pH";
                ch_value := v |})]
    /\ forall text, v = Some (FloatOf text) -> Samples.plain_decimal text = true.
Proof.
  apply (returned_reading_parses Samples.plain_decimal Samples.no_sample
           (Samples.ph_input "I2C" (Return (RPair "success" "7.00,abc,7.00"))) []
           (value_set 0 (Some (FloatOf "7.00")) measurements_dict)
           [EQuery atlas_device_slot (PyStr "R")]).
  reflexivity.
Defined.

(** X18 on the payload with one comma. *)
Lemma raises_iff_one_comma_witness :
  exists e t,
    AtlasPh.get_measurement Samples.plain_decimal Samples.no_sample
      (Samples.ph_input "I2C" (Return (RPair "success" "7.00,abc"))) [] = (Raise e, t).
Proof.
  destruct (raises_iff_one_comma Samples.plain_decimal Samples.no_sample
              (Samples.ph_input "I2C" (Return (RPair "success" "7.00,abc")))
              (Samples.stub 2 (Return (RPair "success" "7.00,abc")))
              "7.00,abc" [] eq_refl eq_refl eq_refl) as (t1 & Hc & H).
  cbn in Hc. injection Hc as <-.
  apply (proj1 (H eq_refl)). reflexivity.
Defined.

End AtlasPhMore.

(* ================================================================== *)
(** * Properties of the constructor of atlas_ph.py *)

Module AtlasPhInitFacts.
Import AtlasPhInit.
Local Open Scope list_scope.

Lemma core_app h h' : core (h ++ h') = core h ++ core h'.
Proof.
  induction h as [|r h IH]; [reflexivity|].
  destruct r; cbn; now rewrite IH.
Qed.

Lemma core_map_Core t : core (map Core t) = t.
Proof. induction t as [|e t IH]; [reflexivity|]. cbn. now rewrite IH. Qed.

(** A lifted computation appends what the computation appends. *)
Lemma lift_ext (A : Type) (m : M A) h r ext :
  m (core h) = (r, core h ++ ext) ->
  lift m h = (r, h ++ map Core ext).
Proof.
  intros H. unfold lift. rewrite H.
  now rewrite skipn_app, skipn_all, Nat.sub_diag.
Qed.

Lemma lift_same (A : Type) (m : M A) h r :
  m (core h) = (r, core h) ->
  lift m h = (r, h).
Proof.
  intros H. rewrite <- (app_nil_r (core h)) in H at 2.
  rewrite (lift_ext A m h r [] H). cbn. now rewrite app_nil_r.
Qed.

Section Construct.

Variable float_parses : string -> bool.
Variable get_last_measurement : pyval -> pyval -> Z -> option (pyval * pyval).
Variable open_sensor : Calibration.input_dev -> outcome device.
Variable connect : Calibration.input_dev -> outcome device.

Abbreviation construct :=
  (AtlasPhInit.__init__ float_parses get_last_measurement open_sensor connect).
Abbreviation get_measurement :=
  (AtlasPh.get_measurement float_parses get_last_measurement).
Abbreviation first_cycle :=
  (AtlasPhInit.first_cycle float_parses get_last_measurement).

(** The interfaces for which [initialize_sensor] opens a driver. *)
Abbreviation known iface :=
  ((iface =? "FTDI") || (iface =? "UART") || (iface =? "I2C"))%string.

(** The object the constructor works on. *)
Abbreviation object device_id measurement_id max_age input_dev dev cmd :=
  {| AtlasPh.interface := Calibration.dev_interface input_dev;
     AtlasPh.atlas_device := dev;
     AtlasPh.atlas_command := cmd;
     AtlasPh.temperature_comp_meas_device_id := device_id;
     AtlasPh.temperature_comp_meas_measurement_id := measurement_id;
     AtlasPh.max_age := max_age |}.

(** The first cycle on an object without device. *)
Lemma first_cycle_without_device device_id measurement_id max_age input_dev cmd h :
  lift (get_measurement (object device_id measurement_id max_age input_dev None cmd)) h =
  (Raise (AttributeError "'NoneType' object has no attribute 'setup'"), h).
Proof. apply lift_same. reflexivity. Qed.

(** The constructor on an interface for which no driver exists. *)
Lemma construct_unknown device_id measurement_id max_age input_dev h :
  known (Calibration.dev_interface input_dev) = false ->
  construct device_id measurement_id max_age input_dev false h =
  (Raise (AttributeError "'NoneType' object has no attribute 'setup'"),
   if truthy measurement_id
   then h ++ [LogException "Exception while initializing sensor"
                (AttributeError
                   "'AtlasScientificCommand' object has no attribute 'atlas_device'")]
   else h).
Proof.
  intros Hk. unfold AtlasPhInit.__init__; cbn [negb].
  unfold Eff.bind at 1. unfold Eff.try_except at 1. unfold Eff.bind at 1.
  unfold initialize_sensor. rewrite Hk.
  rewrite (lift_same _ (ret None) h (Return None) eq_refl).
  destruct (truthy measurement_id).
  - unfold Eff.try_except, Eff.bind.
    rewrite (lift_same _ (Calibration.__init__ connect input_dev None) h
               (Raise (AttributeError
                  "'AtlasScientificCommand' object has no attribute 'atlas_device'"))).
    2: { unfold Calibration.__init__, bind. now rewrite Hk. }
    cbn -[lift]. now rewrite first_cycle_without_device.
  - cbn -[lift]. unfold Eff.bind. now rewrite first_cycle_without_device.
Qed.

(** The constructor when the driver cannot be opened. *)
Lemma construct_open_fails device_id measurement_id max_age input_dev h e :
  known (Calibration.dev_interface input_dev) = true ->
  open_sensor input_dev = Raise e ->
  construct device_id measurement_id max_age input_dev false h =
  (Raise (AttributeError "'NoneType' object has no attribute 'setup'"),
   h ++ [LogException "Exception while initializing sensor" e]).
Proof.
  intros Hk Ho. unfold AtlasPhInit.__init__; cbn [negb].
  unfold Eff.bind at 1. unfold Eff.try_except at 1. unfold Eff.bind at 1.
  rewrite (lift_same _ (initialize_sensor open_sensor input_dev
                          (Calibration.dev_interface input_dev)) h (Raise e)).
  2: { unfold initialize_sensor, bind. now rewrite Hk, Ho. }
  cbn -[lift]. unfold Eff.bind. now rewrite first_cycle_without_device.
Qed.

(** A command object built on a given sensor. *)
Lemma command_built input_dev d t :
  exists cmd rec,
    Calibration.__init__ connect input_dev (Some d) t = (Return cmd, t ++ [rec])
    /\ Calibration.atlas_device cmd = d
    /\ bound_transport cmd = None.
Proof.
  assert (H : exists cmd rec,
    Calibration.__init__ connect input_dev (Some d) t = (Return cmd, t ++ [rec])
    /\ Calibration.atlas_device cmd = d).
  { unfold Calibration.__init__, bind; cbn.
    destruct (get_board_version d) as [[meas brd] fw].
    destruct (brd =? 0)%Z; cbn; do 2 eexists; split; reflexivity. }
  destruct H as (cmd & rec & E & Hd). exists cmd, rec.
  repeat split; auto.
  exact (CalibrationFacts.init_leaves_transport_unbound _ _ _ _ _ _ E).
Qed.

(** The constructor when the driver opens. *)
Lemma construct_opened device_id measurement_id max_age input_dev h d :
  known (Calibration.dev_interface input_dev) = true ->
  open_sensor input_dev = Return d ->
  exists cmd h1,
    construct device_id measurement_id max_age input_dev false h =
      first_cycle (object device_id measurement_id max_age input_dev (Some d) cmd) h1
    /\ (if truthy measurement_id
        then exists c rec, cmd = Some c /\ h1 = h ++ [Core rec]
                           /\ Calibration.atlas_device c = d
                           /\ bound_transport c = None
        else cmd = None /\ h1 = h).
Proof.
  intros Hk Ho. unfold AtlasPhInit.__init__, AtlasPhInit.first_cycle; cbn [negb].
  unfold Eff.bind at 1. unfold Eff.try_except at 1. unfold Eff.bind at 1.
  rewrite (lift_same _ (initialize_sensor open_sensor input_dev
                          (Calibration.dev_interface input_dev)) h (Return (Some d))).
  2: { unfold initialize_sensor, bind. now rewrite Hk, Ho. }
  destruct (truthy measurement_id).
  - destruct (command_built input_dev d (core h)) as (c & rec & E & Hd & Hb).
    unfold Eff.try_except, Eff.bind.
    rewrite (lift_ext _ _ h (Return c) [rec] E). cbn -[lift].
    exists (Some c), (h ++ [Core rec]). split; [reflexivity|].
    exists c, rec. auto.
  - exists None, h. split; [reflexivity|auto].
Qed.

Lemma known_cases iface :
  known iface = true <-> iface = "FTDI" \/ iface = "UART" \/ iface = "I2C".
Proof.
  rewrite !orb_true_iff, !String.eqb_eq. tauto.
Qed.

(** ** Properties *)

(** X19: with an interface other than FTDI, UART and I2C, an input cannot
    be constructed: no driver is opened, and the first measurement, taken
    on the missing device, raises [AttributeError] out of the constructor.
    When compensation is configured, the failed construction of the
    command object is logged before that. *)
Theorem unknown_interface_cannot_construct
    device_id measurement_id max_age input_dev h :
  Calibration.dev_interface input_dev <> "FTDI" ->
  Calibration.dev_interface input_dev <> "UART" ->
  Calibration.dev_interface input_dev <> "I2C" ->
  construct device_id measurement_id max_age input_dev false h =
  (Raise (AttributeError "'NoneType' object has no attribute 'setup'"),
   if truthy measurement_id
   then h ++ [LogException "Exception while initializing sensor"
                (AttributeError
                   "'AtlasScientificCommand' object has no attribute 'atlas_device'")]
   else h).
Proof.
  intros Hf Hu Hi. apply construct_unknown.
  apply String.eqb_neq in Hf, Hu, Hi. now rewrite Hf, Hu, Hi.
Qed.

(** X20: when the driver of the interface cannot be opened, its exception
    is caught and logged, no command object is built, and the constructor
    then fails all the same: the first measurement raises
    [AttributeError] on the missing device, and that is the exception the
    caller sees. *)
Theorem driver_failure_is_logged_then_fatal
    device_id measurement_id max_age input_dev h e :
  Calibration.dev_interface input_dev = "FTDI"
    \/ Calibration.dev_interface input_dev = "UART"
    \/ Calibration.dev_interface input_dev = "I2C" ->
  open_sensor input_dev = Raise e ->
  construct device_id measurement_id max_age input_dev false h =
  (Raise (AttributeError "'NoneType' object has no attribute 'setup'"),
   h ++ [LogException "Exception while initializing sensor" e]).
Proof.
  intros Hk Ho. apply construct_open_fails; [now apply known_cases|exact Ho].
Qed.



End Construct.

(** X19 on "SPI" with compensation configured. *)
Lemma unknown_interface_cannot_construct_witness :
  AtlasPhInit.__init__ Samples.plain_decimal Samples.one_sample
    (MoreSamples.opens Samples.ok_reply) Samples.no_driver
    (PyStr "dev-1") (PyStr "meas-1") 120 (Samples.input_on "SPI") false [] =
  (Raise (AttributeError "'NoneType' object has no attribute 'setup'"),
   [LogException "Exception while initializing sensor"
      (AttributeError
         "'AtlasScientificCommand' object has no attribute 'atlas_device'")]).
Proof.
  apply (unknown_interface_cannot_construct Samples.plain_decimal Samples.one_sample
           (MoreSamples.opens Samples.ok_reply) Samples.no_driver
           (PyStr "dev-1") (PyStr "meas-1") 120 (Samples.input_on "SPI") []);
    discriminate.
Defined.

(** X20 on UART with a port that cannot be opened. *)
Lemma driver_failure_is_logged_then_fatal_witness :
  AtlasPhInit.__init__ Samples.plain_decimal Samples.one_sample
    MoreSamples.fails_to_open Samples.no_driver
    (PyStr "dev-1") (PyStr "meas-1") 120 (Samples.input_on "UART") false [] =
  (Raise (AttributeError "'NoneType' object has no attribute 'setup'"),
   [LogException "Exception while initializing sensor"
      (Exn "SerialException" "could not open port")]).
Proof.
  apply (driver_failure_is_logged_then_fatal Samples.plain_decimal Samples.one_sample
           MoreSamples.fails_to_open Samples.no_driver
           (PyStr "dev-1") (PyStr "meas-1") 120 (Samples.input_on "UART") []
           (Exn "SerialException" "could not open port")).
  - right; left; reflexivity.
  - reflexivity.
Defined.


(** The constructor, run with compensation configured: the probe is
    logged, the temperature literal fails inside [calibrate], and the
    first reading is thrown away. *)
Example constructor_run :
  AtlasPhInit.__init__ Samples.plain_decimal Samples.one_sample
    (MoreSamples.opens (Return (RPair "success" "7.00"))) Samples.no_driver
    (PyStr "dev-1") (PyStr "meas-1") 120 (Samples.input_on "I2C") false [] =
  (Return (Live
     {| AtlasPh.interface := "I2C";
        AtlasPh.atlas_device := Some (Samples.stub 2 (Return (RPair "success" "7.00")));
        AtlasPh.atlas_command :=
          Some {| Calibration.ph_sensor_ftdi := Unset;
                  Calibration.ph_sensor_uart := IsNone;
                  Calibration.ph_sensor_i2c := IsNone;
                  Calibration.interface := "I2C";
                  Calibration.init_error := None;
                  Calibration.atlas_device :=
                    Samples.stub 2 (Return (RPair "success" "7.00"));
                  Calibration.measurement := PyStr "pH";
                  Calibration.board_version := 2;
                  Calibration.firmware_version := PyStr "1.0" |};
        AtlasPh.temperature_comp_meas_device_id := PyStr "dev-1";
        AtlasPh.temperature_comp_meas_measurement_id := PyStr "meas-1";
        AtlasPh.max_age := 120 |}),
   map Core
     [ELog Debug (LInitSuccess (PyStr "pH") 2 (PyStr "1.0"));
      ELog Debug LCalibrateTemperature;
      ELog Debug (LLatestTemperature (PyFloat "25.0"));
      ELog Error (LSendException
        (AttributeError "'NoneType' object has no attribute 'query'"));
      ESleep 500;
      ELog Debug (LCalibrationReturned (PyInt 1)
        (MExc (AttributeError "'NoneType' object has no attribute 'query'")));
      EQuery atlas_device_slot (PyStr "R")]).
Proof. reflexivity. Qed.


End AtlasPhInitFacts.

(* ================================================================== *)
(** * Properties of bmp180.py *)

Module Bmp180Facts.
Import Bmp180.
Local Open Scope list_scope.

Section Cycle.

Variable is_enabled : Z -> bool.
Variable calculate_altitude : pyval -> pyval.

Abbreviation get_measurement := (Bmp180.get_measurement is_enabled calculate_altitude).

(** The reads of a cycle, in order. *)
Abbreviation pressure_read := (if is_enabled 0 then [ReadPressure] else []).
Abbreviation temperature_read := (if is_enabled 1 then [ReadTemperature] else []).

(** X23: a cycle sleeps 2 s, then reads the pressure and the temperature,
    in this order, each exactly when its channel is selected, and reads
    nothing else.  When these reads succeed it returns the dictionary
    with the pressure at index 0 and the temperature at index 1 for the
    selected channels, and at index 2 the altitude computed from the
    pressure read in this very cycle, provided both the altitude and the
    pressure channel are selected; every other entry is as it was. *)
Theorem cycle_values bmp v0 v1 v2 t p c :
  (is_enabled 0 = true -> read_pressure bmp (t ++ [Sleep 2000]) = Return p) ->
  (is_enabled 1 = true ->
   read_temperature bmp (t ++ [Sleep 2000] ++ pressure_read) = Return c) ->
  get_measurement bmp (measurements_holding v0 v1 v2) t =
  (Return (measurements_holding
             (if is_enabled 0 then Some p else v0)
             (if is_enabled 1 then Some c else v1)
             (if is_enabled 2 && is_enabled 0
              then Some (calculate_altitude p) else v2)),
   t ++ [Sleep 2000] ++ pressure_read ++ temperature_read).
Proof.
  intros Hp Hc. unfold Bmp180.get_measurement, Eff.bind, Eff.emit, call_read.
  destruct (is_enabled 0); destruct (is_enabled 1); destruct (is_enabled 2);
    cbn [andb app] in *;
    rewrite ?(Hp eq_refl); cbn;
    rewrite <- ?app_assoc; cbn [app];
    rewrite ?(Hc eq_refl); cbn;
    rewrite <- ?app_assoc; reflexivity.
Qed.

(** X24: a failure of the pressure read leaves the cycle as it is: the
    temperature is not read any more and no dictionary is returned. *)
Theorem pressure_failure_propagates bmp shared t e :
  is_enabled 0 = true ->
  read_pressure bmp (t ++ [Sleep 2000]) = Raise e ->
  get_measurement bmp shared t = (Raise e, t ++ [Sleep 2000; ReadPressure]).
Proof.
  intros H0 Hp. unfold Bmp180.get_measurement, Eff.bind, Eff.emit, call_read.
  rewrite H0, Hp. now rewrite <- app_assoc.
Qed.

End Cycle.

(** X23 with all channels selected. *)
Lemma cycle_values_witness :
  Bmp180.get_measurement MoreSamples.all_enabled MoreSamples.altitude_of
    MoreSamples.bmp Bmp180.measurements_dict [] =
  (Return (measurements_holding (Some (PyInt 101325)) (Some (PyFloat "21.5"))
             (Some (PyStr "altitude(101325)"))),
   [Sleep 2000; ReadPressure; ReadTemperature]).
Proof.
  apply (cycle_values MoreSamples.all_enabled MoreSamples.altitude_of
           MoreSamples.bmp None None None [] (PyInt 101325) (PyFloat "21.5"));
    reflexivity.
Defined.

(** With the altitude selected and the pressure not, nothing is read and
    no altitude is stored. *)
Example altitude_needs_pressure :
  Bmp180.get_measurement MoreSamples.altitude_only MoreSamples.altitude_of
    MoreSamples.bmp Bmp180.measurements_dict [] =
  (Return Bmp180.measurements_dict, [Sleep 2000]).
Proof. reflexivity. Qed.

(** X24 on a sensor whose bus fails. *)
Lemma pressure_failure_propagates_witness :
  Bmp180.get_measurement MoreSamples.all_enabled MoreSamples.altitude_of
    MoreSamples.bmp_failing Bmp180.measurements_dict [] =
  (Raise (Exn "IOError" "bus error"), [Sleep 2000; ReadPressure]).
Proof.
  apply (pressure_failure_propagates MoreSamples.all_enabled MoreSamples.altitude_of
           MoreSamples.bmp_failing Bmp180.measurements_dict []
           (Exn "IOError" "bus error")); reflexivity.
Defined.

End Bmp180Facts.
